(** * Decision-and-replay core of trading_system

    Shallow embedding of
    - [services/learning/backtesting.py]  (class [Backtesting]),
    - [core/strategy/risk_manager.py]     (class [RiskManager]),
    - [core/strategy/position_manager.py] (class [PositionManager]),
    - [core/strategy/signal_generator.py] ([SignalGenerator._prepare_market_data]),
    - [traders/trader_base.py]            ([TraderBase._trading_loop]).

    Python floats are modelled as exact rationals [Q]; Python exceptions as
    the [Raise] branch of [result]. *)

From Stdlib Require Import QArith Qabs Lia Lqa.
From stdpp Require Import base list gmap strings.

Open Scope Q_scope.

(* ------------------------------------------------------------------ *)
(** ** Python exceptions and the error monad *)

Inductive PyExc :=
| AttributeError (attr : string)
| ZeroDivisionError
| TypeError (msg : string)
| NameError (name : string)
| KeyError (key : string)
| IndexError.

Inductive result (A : Type) :=
| Ok (a : A)
| Raise (e : PyExc).
Arguments Ok {A} a.
Arguments Raise {A} e.

Definition bind {A B} (m : result A) (k : A -> result B) : result B :=
  match m with
  | Ok a => k a
  | Raise e => Raise e
  end.

Notation "'let!' x ':=' m 'in' k" := (bind m (fun x => k))
  (at level 200, x name, m at level 100, k at level 200).

(** Python's [/] on floats: raises [ZeroDivisionError] on a zero divisor. *)
Definition py_div (a b : Q) : result Q :=
  if Qeq_bool b 0 then Raise ZeroDivisionError else Ok (a / b).

(** Python's [<] on floats. *)
Definition py_lt (a b : Q) : bool := negb (Qle_bool b a).

Lemma py_div_ok a b q : py_div a b = Ok q -> ~ b == 0 /\ q = a / b.
Proof.
  unfold py_div. destruct (Qeq_bool b 0) eqn:E; intros H; inversion H.
  split; [|reflexivity]. intros Hb. apply Qeq_bool_iff in Hb. congruence.
Qed.

(* ------------------------------------------------------------------ *)
(** ** Backtesting (services/learning/backtesting.py) *)

Module Backtest.

(** A signal dict as stored in the ['signal'] column: [{'action': ...}]. *)
Record Signal := mkSignal { action : string }.

(** One row of the [market_data] DataFrame. *)
Record Row := mkRow {
  timestamp : Z;
  row_price : Q;
  row_signal : Signal
}.

(** The [position] dict opened on a BUY. *)
Record Position := mkPosition {
  entry_time : Z;
  entry_price : Q;
  amount : Q;
  direction : string;
  stop_loss : Q;
  take_profit : Q
}.

(** A trade dict appended to [new_trades]. *)
Record Trade := mkTrade {
  t_entry_time : Z;
  t_exit_time : Z;
  t_entry_price : Q;
  t_exit_price : Q;
  t_amount : Q;
  t_direction : string;
  pnl_pct : Q;
  reason : string
}.

(** [strategy_params]: a dict read with [.get(key, default)]; [None] is an
    absent key. *)
Record StrategyParams := mkParams {
  sp_stop_loss_pct : option Q;
  sp_take_profit_pct : option Q;
  sp_fee_pct : option Q;
  sp_position_size_pct : option Q
}.

Definition dict_get (v : option Q) (default : Q) : Q :=
  match v with Some x => x | None => default end.

(** Lines 47-50. *)
Definition sl_pct (sp : StrategyParams) := dict_get (sp_stop_loss_pct sp) 2.
Definition tp_pct (sp : StrategyParams) := dict_get (sp_take_profit_pct sp) 4.
Definition fee_pct (sp : StrategyParams) := dict_get (sp_fee_pct sp) (1 # 10).
Definition position_size_pct (sp : StrategyParams) :=
  dict_get (sp_position_size_pct sp) 10.

(** Closing a long position at [current_price] (lines 122-139 and 143-160,
    identical up to the recorded reason). *)
Definition close_long (why : string) (position : Position) (current_price : Q)
    (current_time : Z) (balance fee_percentage : Q)
    : result (Q * option Position * list Trade) :=
  let! r := py_div current_price (entry_price position) in
  let pnl := (r - 1) * 100 in
  let amount_value := amount position * current_price in
  let commission := amount_value * fee_percentage / 100 in
  let trade := mkTrade (entry_time position) current_time
                 (entry_price position) current_price (amount position)
                 "long" pnl why in
  Ok (balance + (amount_value - commission), None, [trade]).

(** [Backtesting._process_signal], lines 96-162. *)
Definition process_signal (signal : Signal) (current_price : Q)
    (current_time : Z) (balance : Q) (position : option Position)
    (sl tp fee_percentage psz : Q)
    : result (Q * option Position * list Trade) :=
  match position with
  | None =>
      if String.eqb (action signal) "BUY" then
        let position_size := balance * psz / 100 in
        let! position_amount := py_div position_size current_price in
        let commission := position_size * fee_percentage / 100 in
        let pos := mkPosition current_time current_price position_amount "long"
                     (current_price * (1 - sl / 100))
                     (current_price * (1 + tp / 100)) in
        Ok (balance - commission, Some pos, [])
      else Ok (balance, None, [])
  | Some p =>
      if String.eqb (direction p) "long" then
        if Qle_bool current_price (stop_loss p) then
          close_long "stop_loss" p current_price current_time balance fee_percentage
        else if Qle_bool (take_profit p) current_price then
          close_long "take_profit" p current_price current_time balance fee_percentage
        else Ok (balance, Some p, [])
      else Ok (balance, Some p, [])
  end.

(** The equity-curve record [{'timestamp': ..., 'balance': ...}]. *)
Definition EquityPoint := (Z * Q)%type.

Record LoopState := mkLoop {
  ls_balance : Q;
  ls_position : option Position;
  ls_trades : list Trade;
  ls_equity : list EquityPoint
}.

(** The [for index, row in market_data.iterrows()] loop of
    [run_backtest], lines 55-67. *)
Fixpoint backtest_loop (rows : list Row) (sp : StrategyParams) (st : LoopState)
    : result LoopState :=
  match rows with
  | [] => Ok st
  | row :: rest =>
      let equity := ls_equity st ++ [(timestamp row, ls_balance st)] in
      let! res :=
        process_signal (row_signal row) (row_price row) (timestamp row)
          (ls_balance st) (ls_position st)
          (sl_pct sp) (tp_pct sp) (fee_pct sp) (position_size_pct sp) in
      let '(b, p, new_trades) := res in
      backtest_loop rest sp (mkLoop b p (ls_trades st ++ new_trades) equity)
  end.

Definition initial_state (initial_capital : Q) : LoopState :=
  mkLoop initial_capital None [] [].

(** The [profit_factor] value: a float that may be [float('inf')]. *)
Inductive ProfitFactor :=
| PFNum (q : Q)
| PFInf.

(** The metrics dict.  [max_drawdown_pct] and [sharpe_ratio] are pandas
    float computations (cummax, pct_change, std, a square root) that do not
    raise; they are not modelled here. *)
Record Metrics := mkMetrics {
  total_return_pct : Q;
  profit_factor : ProfitFactor;
  win_rate : Q;
  total_trades : nat;
  winning_trades : nat;
  losing_trades : nat
}.

(** Python's [sum] over the [pnl_pct] of a list of trades (left to right,
    from 0). *)
Definition sum_pnl (ts : list Trade) : Q :=
  fold_left (fun acc t => acc + pnl_pct t) ts 0.

Definition is_winning (t : Trade) : bool := py_lt 0 (pnl_pct t).
Definition is_losing (t : Trade) : bool := Qle_bool (pnl_pct t) 0.

(** [Backtesting._calculate_performance_metrics], lines 177-214. *)
Definition calculate_performance_metrics (initial_capital final_balance : Q)
    (trades : list Trade) : result Metrics :=
  match trades with
  | [] => Ok (mkMetrics 0 (PFNum 0) 0 0 0 0)
  | _ =>
      let! ret := py_div (final_balance - initial_capital) initial_capital in
      let total_return := ret * 100 in
      let winning := filter is_winning trades in
      let losing := filter is_losing trades in
      let! win_rate := py_div (inject_Z (Z.of_nat (length winning)))
                              (inject_Z (Z.of_nat (length trades))) in
      let total_profit := sum_pnl winning in
      let total_loss := Qabs (sum_pnl losing) in
      let! pf := (if py_lt 0 total_loss
                  then let! q := py_div total_profit total_loss in Ok (PFNum q)
                  else Ok PFInf) in
      Ok (mkMetrics total_return pf win_rate (length trades)
            (length winning) (length losing))
  end.

(** The methods that class [Backtesting] defines (backtesting.py):
    attribute lookup on [self] fails for any other name. *)
Definition backtesting_methods : list string :=
  ["__init__"; "run_backtest"; "_process_signal";
   "_calculate_performance_metrics"].

Definition getattr_self (name : string) : result unit :=
  if existsb (String.eqb name) backtesting_methods then Ok tt
  else Raise (AttributeError name).

(** What [run_backtest] would hand back: ledger, equity curve, metrics. *)
Definition Report := (list Trade * list EquityPoint * Metrics)%type.

(** [Backtesting.run_backtest], lines 23-75: filter by date, replay the
    rows, compute metrics, then call [self._generate_report]. *)
Definition run_backtest (symbol : string) (start_date end_date : Z)
    (initial_capital : Q) (sp : StrategyParams) (market_data : list Row)
    : result Report :=
  let rows := filter (fun r => (start_date <=? timestamp r)%Z
                               && (timestamp r <=? end_date)%Z) market_data in
  let! st := backtest_loop rows sp (initial_state initial_capital) in
  let! metrics := calculate_performance_metrics initial_capital
                    (ls_balance st) (ls_trades st) in
  let! _ := getattr_self "_generate_report" in
  Ok (ls_trades st, ls_equity st, metrics).

End Backtest.

(* ------------------------------------------------------------------ *)
(** ** Balance accounting of the replay loop *)

Module Accounting.
Import Backtest.

Definition qsum (l : list Q) : Q := fold_right Qplus 0 l.

(** Realized PnL of a trade in notional terms. *)
Definition trade_pnl_notional (t : Trade) : Q :=
  t_amount t * (t_exit_price t - t_entry_price t).

(** Notional of a trade at entry. *)
Definition trade_entry_notional (t : Trade) : Q :=
  t_amount t * t_entry_price t.

(** Entry plus exit commission of a closed trade at fee [f] percent. *)
Definition trade_commissions (f : Q) (t : Trade) : Q :=
  t_amount t * t_entry_price t * f / 100 + t_amount t * t_exit_price t * f / 100.

(** Entry commission already charged for a still-open position. *)
Definition open_commission (f : Q) (pos : option Position) : Q :=
  match pos with
  | None => 0
  | Some p => amount p * entry_price p * f / 100
  end.

Definition total_commission (f : Q) (trades : list Trade) (pos : option Position) : Q :=
  qsum (map (trade_commissions f) trades) + open_commission f pos.

(** The reconciliation the spec states (§4.4, §8):
    [initial_capital + Σ realized_pnl_notional - Σ commission]. *)
Definition reconciled_balance (initial_capital f : Q) (trades : list Trade)
    (pos : option Position) : Q :=
  initial_capital + qsum (map trade_pnl_notional trades)
  - total_commission f trades pos.

(** Cash a closed trade brings back into [balance] in the code, net of its
    two commissions. *)
Definition trade_cash (f : Q) (t : Trade) : Q :=
  t_amount t * t_exit_price t - trade_commissions f t.

Lemma qsum_app l1 l2 : qsum (l1 ++ l2) == qsum l1 + qsum l2.
Proof.
  induction l1 as [|x l1 IH]; simpl.
  - ring.
  - rewrite IH. ring.
Qed.

Lemma process_signal_cash s price time b pos sl tp f psz b' pos' nt :
  process_signal s price time b pos sl tp f psz = Ok (b', pos', nt) ->
  b' + open_commission f pos' == b + open_commission f pos + qsum (map (trade_cash f) nt).
Proof.
  unfold process_signal, close_long.
  destruct pos as [p|].
  - destruct (String.eqb (direction p) "long");
      [| intros H; inversion H; subst; simpl; ring].
    destruct (Qle_bool price (stop_loss p));
      [| destruct (Qle_bool (take_profit p) price)];
      try (intros H; inversion H; subst; simpl; ring);
      (destruct (py_div price (entry_price p)) eqn:E; simpl; intros H;
       inversion H; subst; unfold trade_cash, trade_commissions; simpl; ring).
  - destruct (String.eqb (action s) "BUY"); [| intros H; inversion H; subst; simpl; ring].
    destruct (py_div (b * psz / 100) price) as [q|] eqn:E; simpl; intros H; inversion H; subst.
    apply py_div_ok in E as [Hp ->]. simpl. field. exact Hp.
Qed.

Lemma backtest_loop_cash rows sp c st st' :
  backtest_loop rows sp st = Ok st' ->
  ls_balance st + open_commission (fee_pct sp) (ls_position st)
    == c + qsum (map (trade_cash (fee_pct sp)) (ls_trades st)) ->
  ls_balance st' + open_commission (fee_pct sp) (ls_position st')
    == c + qsum (map (trade_cash (fee_pct sp)) (ls_trades st')).
Proof.
  revert st. induction rows as [|row rows IH]; intros st Hrun Hinv; simpl in Hrun.
  - inversion Hrun; subst. exact Hinv.
  - destruct (process_signal _ _ _ _ _ _ _ _ _) as [[[b p] nt]|e] eqn:Hstep;
      simpl in Hrun; [|discriminate].
    apply (IH _ Hrun). simpl.
    apply process_signal_cash in Hstep. rewrite Hstep, map_app, qsum_app, Hinv. ring.
Qed.

(** What the replay loop's balance actually is: the spec's reconciliation
    plus the entry notional of every closed trade, which the code never
    deducts at entry. *)
Lemma backtest_balance_identity rows sp c st :
  backtest_loop rows sp (initial_state c) = Ok st ->
  ls_balance st == reconciled_balance c (fee_pct sp) (ls_trades st) (ls_position st)
                   + qsum (map trade_entry_notional (ls_trades st)).
Proof.
  intros Hrun.
  pose proof (backtest_loop_cash rows sp c _ _ Hrun) as H.
  simpl in H. specialize (H ltac:(ring)).
  unfold reconciled_balance, total_commission.
  assert (Hsplit : forall l, qsum (map (trade_cash (fee_pct sp)) l)
     == qsum (map trade_pnl_notional l) + qsum (map trade_entry_notional l)
        - qsum (map (trade_commissions (fee_pct sp)) l)).
  { induction l as [|t l IHl]; simpl; [ring|]. rewrite IHl.
    unfold trade_cash, trade_pnl_notional, trade_entry_notional. ring. }
  rewrite Hsplit in H.
  assert (E : ls_balance st == ls_balance st + open_commission (fee_pct sp) (ls_position st)
                              - open_commission (fee_pct sp) (ls_position st)) by ring.
  rewrite E, H. ring.
Qed.

End Accounting.

(* ------------------------------------------------------------------ *)
(** ** Risk sizing (core/strategy/risk_manager.py) *)

Module Risk.

Record RiskManager := mkRiskManager {
  account_balance : Q;
  max_risk_per_trade : Q
}.

(** [RiskManager.__init__]: default balance 10000.0, fixed 2% risk. *)
Definition new_risk_manager (ab : option Q) : RiskManager :=
  mkRiskManager (match ab with Some b => b | None => 10000 end) (2 # 100).

(** [RiskManager.calculate_position_size(stop_loss, entry_price)]. *)
Definition calculate_position_size (rm : RiskManager) (stop_loss entry_price : Q)
    : result Q :=
  let risk_amount := account_balance rm * max_risk_per_trade rm in
  let risk_per_unit := Qabs (entry_price - stop_loss) in
  if py_lt 0 risk_per_unit then py_div risk_amount risk_per_unit else Ok 0.

(** The positional parameters of [calculate_position_size]. *)
Definition calculate_position_size_params : list string :=
  ["stop_loss"; "entry_price"].

(** Python's check of keyword arguments against a signature: the first
    keyword the function does not declare raises [TypeError]. *)
Definition check_kwargs (params kws : list string) : result unit :=
  match filter (fun k => negb (existsb (String.eqb k) params)) kws with
  | [] => Ok tt
  | k :: _ => Raise (TypeError ("unexpected keyword argument " +:+ k))
  end.

(** A scalar value of a signal dict: a number, or anything else (a string,
    [None], a list), which Python refuses to order against a float. *)
Inductive PyScalar :=
| SNum (q : Q)
| SOther (descr : string).

(** [RiskManager.validate_signal]; [None] is a signal that is not a dict. *)
Definition validate_signal (signal : option (gmap string PyScalar)) : result bool :=
  match signal with
  | None => Ok false
  | Some d =>
      match d !! "confidence" with
      | None => Ok false
      | Some (SNum c) => if py_lt c (6 # 10) then Ok false else Ok true
      | Some (SOther _) => Raise (TypeError "'<' not supported")
      end
  end.

(** [RiskManager.get_position_limit]. *)
Definition get_position_limit (rm : RiskManager) (symbol : string) : Q :=
  if String.eqb symbol "BTC/USDT" then account_balance rm * (1 # 10)
  else account_balance rm * (5 # 100).

(** [RiskManager.calculate_stop_loss]. *)
Definition calculate_stop_loss (symbol : string) (entry_price : Q) (action : string) : Q :=
  if String.eqb action "BUY" then entry_price * (95 # 100)
  else if String.eqb action "SELL" then entry_price * (105 # 100)
  else entry_price.

End Risk.

(* ------------------------------------------------------------------ *)
(** ** Live position manager (core/strategy/position_manager.py) *)

Module Live.
Import Risk.

(** A value of [self.positions]. *)
Record LivePosition := mkLivePosition {
  side : string;
  quantity : Q;
  l_entry_price : Q;
  l_stop_loss : Q;
  l_take_profit : Q
}.

Record PositionManager := mkPM {
  positions : gmap string LivePosition;
  last_trade_time : gmap string Q;
  min_trade_interval : Q
}.

Definition new_position_manager : PositionManager := mkPM ∅ ∅ 60.

(** The signal dict read by [execute]. *)
Record LiveSignal := mkLiveSignal {
  sig : Z;
  sig_stop_loss : Q;
  sig_take_profit : Q
}.

(** [_open_position]; [order] is what [create_order] returned: [None] for a
    falsy order, [Some fill] for an order whose first fill has price
    [fill]; [now] is [time.time()]. *)
Definition open_position (pm : PositionManager) (symbol side : string)
    (quantity stop_loss take_profit : Q) (order : option Q) (now : Q)
    : PositionManager :=
  match order with
  | Some fill =>
      mkPM (<[symbol := mkLivePosition side quantity fill stop_loss take_profit]>
              (positions pm))
           (<[symbol := now]> (last_trade_time pm))
           (min_trade_interval pm)
  | None => pm
  end.

(** [_can_trade]: [last_trade_time.get(symbol, 0)]. *)
Definition can_trade (pm : PositionManager) (symbol : string) (now : Q) : bool :=
  let last_time := match last_trade_time pm !! symbol with
                   | Some t => t | None => 0 end in
  Qle_bool (min_trade_interval pm) (now - last_time).

(** [_get_volatility]: a non-empty OHLCV answer reaches [pd.Series], but
    [pd] is not imported in position_manager.py. *)
Definition get_volatility (ohlcv : list Q) : result Q :=
  match ohlcv with
  | [] => Ok (1 # 100)
  | _ :: _ => Raise (NameError "pd")
  end.

(** [execute]; [ohlcv] is the closes [get_ohlcv] returns, [order] what
    [create_order] returns.  The call to [calculate_position_size] passes
    keywords that [RiskManager.calculate_position_size] does not declare. *)
Definition execute (rm : RiskManager) (pm : PositionManager) (signal : LiveSignal)
    (now : Q) (ohlcv : list Q) (order : option Q) : result PositionManager :=
  let symbol := "BTCUSDT" in
  if (sig signal =? 0)%Z then Ok pm
  else if negb (can_trade pm symbol now) then Ok pm
  else
    let! volatility := get_volatility ohlcv in
    let! _ := check_kwargs calculate_position_size_params
                ["risk_per_trade"; "volatility"; "method"] in
    (* all keywords accepted: the two positional parameters stay unbound *)
    let! position_size := (Raise (TypeError "missing 2 required positional arguments")
                           : result Q) in
    if (sig signal =? 1)%Z then
      Ok (open_position pm symbol "BUY" position_size (sig_stop_loss signal)
            (sig_take_profit signal) order now)
    else if (sig signal =? -1)%Z then
      Ok (open_position pm symbol "SELL" position_size (sig_stop_loss signal)
            (sig_take_profit signal) order now)
    else Ok pm.

(** [_close_position]: [positions.pop(symbol, None)]. *)
Definition close_position (pm : PositionManager) (symbol : string) : PositionManager :=
  mkPM (delete symbol (positions pm)) (last_trade_time pm) (min_trade_interval pm).

(** One symbol of [monitor_positions]; [price] is the last close returned
    by [get_ohlcv], [None] when the list is empty ([[-1]] raises). *)
Definition monitor_one (pm : PositionManager) (symbol : string)
    (position : LivePosition) (price : option Q) : result PositionManager :=
  match price with
  | None => Raise IndexError
  | Some current_price =>
      let pm :=
        if String.eqb (side position) "BUY" && Qle_bool current_price (l_stop_loss position)
        then close_position pm symbol
        else if String.eqb (side position) "SELL" && Qle_bool (l_stop_loss position) current_price
        then close_position pm symbol
        else pm in
      let pm :=
        if String.eqb (side position) "BUY" && Qle_bool (l_take_profit position) current_price
        then close_position pm symbol
        else if String.eqb (side position) "SELL" && Qle_bool current_price (l_take_profit position)
        then close_position pm symbol
        else pm in
      Ok pm
  end.

(** [monitor_positions] over a snapshot of the open positions
    ([list(self.positions.items())]); the model visits them in the order of
    [map_to_list], where Python uses insertion order. *)
Definition monitor_positions (pm : PositionManager) (price_of : string -> option Q)
    : result PositionManager :=
  fold_left (fun acc kv => let! pm' := acc in monitor_one pm' kv.1 kv.2 (price_of kv.1))
    (map_to_list (positions pm)) (Ok pm).

(** Open positions the manager tracks for [symbol]. *)
Definition open_positions_for (pm : PositionManager) (symbol : string)
    : list (string * LivePosition) :=
  filter (fun kv => kv.1 = symbol) (map_to_list (positions pm)).

(** The condition under which [monitor_positions] closes [position] at
    [current_price]: one of its two stop-loss tests or two take-profit
    tests (position_manager.py, lines 102-115). *)
Definition position_triggered (position : LivePosition) (current_price : Q) : bool :=
  (String.eqb (side position) "BUY" && Qle_bool current_price (l_stop_loss position)) ||
  (String.eqb (side position) "SELL" && Qle_bool (l_stop_loss position) current_price) ||
  (String.eqb (side position) "BUY" && Qle_bool (l_take_profit position) current_price) ||
  (String.eqb (side position) "SELL" && Qle_bool current_price (l_take_profit position)).

End Live.

(* ------------------------------------------------------------------ *)
(** ** Market-data preparation (core/strategy/signal_generator.py) *)

Module Signals.

(** Values stored in a symbol's market-data dict. *)
Inductive PyVal :=
| VNum (q : Q)
| VSeries (s : list (Z * Q))
| VStr (s : string)
| VObject (descr : string).

(** [market_data[symbol]]: a dict, or any other value. *)
Inductive MarketEntry :=
| EDict (d : gmap string PyVal)
| EOther.

(** Python's [needle in haystack] on strings. *)
Fixpoint str_contains (needle haystack : string) : bool :=
  String.prefix needle haystack ||
  match haystack with
  | EmptyString => false
  | String _ rest => str_contains needle rest
  end.

(** [pd.date_range(start=now - 5h, end=now, periods=5)], in seconds. *)
Definition synthetic_dates (now : Z) : list Z :=
  [(now - 18000)%Z; (now - 13500)%Z; (now - 9000)%Z; (now - 4500)%Z; now].

(** The five synthetic prices around [current_price], lines 104-110. *)
Definition synthetic_prices (current_price : Q) : list Q :=
  [current_price * (97 # 100); current_price * (98 # 100);
   current_price * (99 # 100); current_price; current_price * (101 # 100)].

Definition synthetic_close (current_price : Q) (now : Z) : list (Z * Q) :=
  zip (synthetic_dates now) (synthetic_prices current_price).

Definition base_price (symbol : string) : Q :=
  if str_contains "BTC" symbol then 50000 else 1500.

(** [_create_default_market_data]. *)
Definition create_default_market_data (symbol : string) (now : Z) : gmap string PyVal :=
  <["close" := VSeries (synthetic_close (base_price symbol) now)]>
  (<["volume" := VNum 100]> (<["price" := VNum (base_price symbol)]> ∅)).

(** [_prepare_market_data]; [now] is [datetime.now()].  Multiplying a
    string price by a float raises [TypeError]; a Series price is multiplied
    elementwise and yields a Series of Series, kept opaque here. *)
Definition prepare_market_data (symbol : string)
    (market_data : gmap string MarketEntry) (now : Z)
    : result (gmap string PyVal) :=
  match market_data !! symbol with
  | None => Ok (create_default_market_data symbol now)
  | Some entry =>
      let data := match entry with
                  | EDict d => d
                  | EOther => <["volume" := VNum 100]> (<["price" := VNum 50000]> ∅)
                  end in
      let data := match data !! "price" with
                  | Some _ => data
                  | None => <["price" := VNum (base_price symbol)]> data
                  end in
      let data := match data !! "volume" with
                  | Some _ => data
                  | None => <["volume" := VNum 100]> data
                  end in
      match data !! "close" with
      | Some _ => Ok data
      | None =>
          match data !! "price" with
          | Some (VNum current_price) =>
              Ok (<["close" := VSeries (synthetic_close current_price now)]> data)
          | Some (VSeries _) =>
              Ok (<["close" := VObject "Series of Series"]> data)
          | _ => Raise (TypeError "can't multiply sequence by non-int of type 'float'")
          end
      end
  end.

(** [self.config['strategy']]: read with [.get(key, default)]. *)
Record StrategyConfig := mkStrategyConfig {
  buy_threshold : option Q;
  sell_threshold : option Q
}.

(** [self.config]; [None] is an absent ['strategy'] key. *)
Record Config := mkConfig { strategy : option StrategyConfig }.

(** A prediction dict with numeric values, read with [.get]. *)
Record Prediction := mkPrediction {
  p_confidence : option Q;
  p_direction : option Q
}.

Definition cfg_buy_threshold (cfg : Config) : Q :=
  match strategy cfg with
  | Some sc => match buy_threshold sc with Some t => t | None => 6 # 10 end
  | None => 6 # 10
  end.

Definition cfg_sell_threshold (cfg : Config) : Q :=
  match strategy cfg with
  | Some sc => match sell_threshold sc with Some t => t | None => 6 # 10 end
  | None => 6 # 10
  end.

(** [_prediction_to_signal]; [None] is a prediction that is not a dict
    ([.get] raises [AttributeError]). *)
Definition prediction_to_signal (cfg : Config) (prediction : option Prediction)
    : result (string * Q) :=
  match prediction with
  | None => Raise (AttributeError "get")
  | Some pr =>
      let confidence := match p_confidence pr with Some c => c | None => 1 # 2 end in
      let direction := match p_direction pr with Some d => d | None => 0 end in
      let action :=
        if py_lt 0 direction && negb (py_lt confidence (cfg_buy_threshold cfg)) then "BUY"
        else if py_lt direction 0 && negb (py_lt confidence (cfg_sell_threshold cfg)) then "SELL"
        else "HOLD" in
      Ok (action, confidence)
  end.

(** The signal dict of [_create_signal_dict] (its [pd.Timestamp.now()] is
    left out). *)
Record SignalOut := mkSignalOut {
  so_symbol : string;
  so_action : string;
  so_confidence : Q
}.

(** [SignalGenerator.generate_signal].  [has_models] is the truthiness of
    [self.models_manager]; [other_truthy] that of a non-dict
    [market_data[symbol]]; [extract] stands for [_extract_features] (which
    calls the [TechnicalFeatures] collaborator; [None] is an empty feature
    dict) and [predict] for [models_manager.predict]. *)
Definition generate_signal {F : Type} (cfg : Config) (has_models : bool)
    (symbol : string) (market_data : gmap string MarketEntry)
    (other_truthy : bool) (now : Z)
    (extract : string -> gmap string PyVal -> result (option F))
    (predict : string -> F -> result (option Prediction)) : SignalOut :=
  let hold := mkSignalOut symbol "HOLD" (1 # 2) in
  let body : result SignalOut :=
    if bool_decide (market_data = ∅) || negb has_models then Ok hold
    else
      let entry_truthy := match market_data !! symbol with
                          | None => false
                          | Some (EDict d) => negb (bool_decide (d = ∅))
                          | Some EOther => other_truthy
                          end in
      if negb entry_truthy then Ok hold
      else
        let! prepared := prepare_market_data symbol market_data now in
        let! features := extract symbol prepared in
        match features with
        | None => Ok hold
        | Some f =>
            let! prediction := predict symbol f in
            let! ac := prediction_to_signal cfg prediction in
            Ok (mkSignalOut symbol ac.1 ac.2)
        end in
  match body with
  | Ok so => so
  | Raise _ => hold   (* except Exception: HOLD, 0.5 *)
  end.

End Signals.

(* ------------------------------------------------------------------ *)
(** ** Trading loop (traders/trader_base.py) *)

Module Trader.

(** Observable outcome of running [_trading_loop]: the final [self.state],
    how many cycles ran, how many errors were logged and notified. *)
Record LoopRun := mkLoopRun {
  final_state : string;
  cycles_run : nat;
  errors_logged : nat
}.

(** [TraderBase._trading_loop]; [cycles] are the successive outcomes of
    [_execute_cycle] (the run is cut off when they are exhausted). *)
Fixpoint trading_loop (state : string) (cycles : list (result unit)) (acc : LoopRun)
    : LoopRun :=
  if String.eqb state "active" then
    match cycles with
    | [] => mkLoopRun state (cycles_run acc) (errors_logged acc)
    | Ok _ :: rest =>
        trading_loop state rest (mkLoopRun state (S (cycles_run acc)) (errors_logged acc))
    | Raise _ :: _ =>
        (* log, notify, self.state = "error", break *)
        mkLoopRun "error" (S (cycles_run acc)) (S (errors_logged acc))
    end
  else mkLoopRun state (cycles_run acc) (errors_logged acc).

Definition run_session (cycles : list (result unit)) : LoopRun :=
  trading_loop "active" cycles (mkLoopRun "active" 0 0).

End Trader.

(* ------------------------------------------------------------------ *)
(** ** Trader life cycle (traders/trader_base.py) *)

Module Lifecycle.







End Lifecycle.

(* ================================================================== *)
(** * Claims *)

Module Claims.
Import Backtest Accounting Risk Live Signals Trader.

(** ** Helper lemmas *)

Lemma Qabs_zero_iff x : Qabs x == 0 <-> x == 0.
Proof.
  split; intros H.
  - pose proof (Qle_Qabs x) as H1. pose proof (Qle_Qabs (- x)) as H2.
    rewrite Qabs_opp in H2. lra.
  - rewrite H. reflexivity.
Qed.

Lemma filter_key_le_one {V} (k : string) (l : list (string * V)) :
  NoDup l.*1 -> (length (filter (fun kv => kv.1 = k) l) <= 1)%nat.
Proof.
  induction l as [|[k' v] l IH]; simpl; intros Hnd; [lia|].
  apply NoDup_cons in Hnd as [Hnin Hnd].
  rewrite filter_cons. simpl. case_decide as Hk.
  - subst k'. simpl.
    assert (Hnil : forall l' : list (string * V),
              k ∉ l'.*1 -> filter (fun kv : string * V => kv.1 = k) l' = []).
    { induction l' as [|[k'' v''] l' IHl']; intros Hn; [reflexivity|].
      rewrite filter_cons. simpl in *. case_decide as Hk''.
      - exfalso. apply Hn. subst. left.
      - apply IHl'. intros Hin. apply Hn. right. exact Hin. }
    rewrite (Hnil l Hnin). simpl. lia.
  - exact (IH Hnd).
Qed.

Definition long_sl_tp (t : Trade) : Prop :=
  t_direction t = "long" /\ (reason t = "stop_loss" \/ reason t = "take_profit").

Lemma process_signal_trades s price time b pos sl tp f psz b' pos' nt :
  process_signal s price time b pos sl tp f psz = Ok (b', pos', nt) ->
  Forall long_sl_tp nt.
Proof.
  unfold process_signal, close_long.
  destruct pos as [p|].
  - destruct (String.eqb (direction p) "long");
      [| intros H; inversion H; subst; constructor].
    destruct (Qle_bool price (stop_loss p));
      [| destruct (Qle_bool (take_profit p) price)];
      try (intros H; inversion H; subst; constructor);
      (destruct (py_div price (entry_price p)); simpl; intros H; inversion H; subst;
       constructor; [unfold long_sl_tp; simpl; tauto | constructor]).
  - destruct (String.eqb (action s) "BUY");
      [destruct (py_div (b * psz / 100) price); simpl|]; intros H; inversion H; constructor.
Qed.

Lemma backtest_loop_trades rows sp st st' :
  backtest_loop rows sp st = Ok st' ->
  Forall long_sl_tp (ls_trades st) -> Forall long_sl_tp (ls_trades st').
Proof.
  revert st. induction rows as [|row rows IH]; intros st Hrun Hinv; simpl in Hrun.
  - inversion Hrun; subst. exact Hinv.
  - destruct (process_signal _ _ _ _ _ _ _ _ _) as [[[b p] nt]|e] eqn:Hstep;
      simpl in Hrun; [|discriminate].
    apply (IH _ Hrun). simpl. apply Forall_app. split; [exact Hinv|].
    exact (process_signal_trades _ _ _ _ _ _ _ _ _ _ _ _ Hstep).
Qed.

(** ** C2 *)

(** C2 (code_bug).  [run_backtest] never returns a report: whatever the
    symbol, dates, capital, parameters and bars, it raises — at the latest
    when it looks up [self._generate_report], a method class [Backtesting]
    does not define. *)
Theorem run_backtest_always_raises symbol start_date end_date initial_capital
    (sp : StrategyParams) (market_data : list Row) :
  exists e, run_backtest symbol start_date end_date initial_capital sp market_data = Raise e.
Proof.
  unfold run_backtest.
  destruct (backtest_loop _ _ _) as [st|e]; simpl; [|eauto].
  destruct (calculate_performance_metrics _ _ _) as [m|e]; simpl; eauto.
Qed.

(** ** C4 *)

(** C4.  At most one open position per symbol: the live manager keys
    [self.positions] by symbol, so for every reachable (indeed every) state
    at most one entry belongs to a symbol; a backtest run holds a single
    optional [position]. *)
Theorem at_most_one_open_position :
  (forall (pm : PositionManager) (symbol : string),
     (length (open_positions_for pm symbol) <= 1)%nat) /\
  (forall (rows : list Row) (sp : StrategyParams) (c : Q),
     match backtest_loop rows sp (initial_state c) with
     | Ok st => (length (option_list (ls_position st)) <= 1)%nat
     | Raise _ => True
     end).
Proof.
  split.
  - intros pm symbol. unfold open_positions_for.
    apply filter_key_le_one. apply NoDup_fst_map_to_list.
  - intros rows sp c. destruct (backtest_loop _ _ _) as [st|]; [|exact I].
    destruct (ls_position st); simpl; lia.
Qed.

(** ** C9 *)

(** C9.  [calculate_position_size] returns
    [account_balance * risk_fraction / |entry_price - stop_loss|], and 0 when
    [stop_loss = entry_price]; it never raises. *)
Theorem calculate_position_size_spec (rm : RiskManager) (stop_loss entry_price : Q) :
  calculate_position_size rm stop_loss entry_price =
  Ok (if Qeq_bool entry_price stop_loss then 0
      else account_balance rm * max_risk_per_trade rm / Qabs (entry_price - stop_loss)).
Proof.
  unfold calculate_position_size, py_lt, py_div.
  destruct (Qle_bool (Qabs (entry_price - stop_loss)) 0) eqn:Hle; cbn [negb].
  - apply Qle_bool_iff in Hle.
    assert (Hz : Qabs (entry_price - stop_loss) == 0).
    { apply Qle_antisym; [exact Hle | apply Qabs_nonneg]. }
    apply (proj1 (Qabs_zero_iff _)) in Hz.
    assert (Heq : entry_price == stop_loss) by lra.
    apply Qeq_bool_iff in Heq. rewrite Heq. reflexivity.
  - assert (Hpos : ~ Qabs (entry_price - stop_loss) <= 0).
    { intros H. apply Qle_bool_iff in H. congruence. }
    destruct (Qeq_bool (Qabs (entry_price - stop_loss)) 0) eqn:Hz.
    + apply Qeq_bool_iff in Hz. exfalso. apply Hpos. rewrite Hz. apply Qle_refl.
    + destruct (Qeq_bool entry_price stop_loss) eqn:He; [|reflexivity].
      exfalso. apply Qeq_bool_iff in He. apply Hpos.
      assert (Hd : entry_price - stop_loss == 0) by lra.
      apply (proj2 (Qabs_zero_iff _)) in Hd. rewrite Hd. apply Qle_refl.
Qed.

(** ** C10 *)

(** C10.  In a backtest a SELL signal acts exactly as HOLD (it neither opens
    nor closes a position); a step ends with a position that is either the
    one already open or a fresh long one opened by a BUY when none was
    open; every trade in the ledger is long and closed by stop-loss or
    take-profit. *)
Theorem backtest_long_only_sl_tp :
  (forall price time b pos sl tp f psz,
     process_signal (mkSignal "SELL") price time b pos sl tp f psz =
     process_signal (mkSignal "HOLD") price time b pos sl tp f psz) /\
  (forall s price time b pos sl tp f psz b' p' nt,
     process_signal s price time b pos sl tp f psz = Ok (b', Some p', nt) ->
     pos = Some p' \/ (pos = None /\ action s = "BUY" /\ direction p' = "long")) /\
  (forall rows sp c st,
     backtest_loop rows sp (initial_state c) = Ok st ->
     Forall long_sl_tp (ls_trades st)).
Proof.
  split; [|split].
  - intros. destruct pos; reflexivity.
  - intros s price time b pos sl tp f psz b' p' nt.
    unfold process_signal, close_long. destruct pos as [p|].
    + destruct (String.eqb (direction p) "long");
        [| intros H; inversion H; subst; left; reflexivity].
      destruct (Qle_bool price (stop_loss p));
        [| destruct (Qle_bool (take_profit p) price)];
        try (intros H; inversion H; subst; left; reflexivity);
        (destruct (py_div price (entry_price p)); simpl; intros H; discriminate).
    + destruct (String.eqb (action s) "BUY") eqn:Ha;
        [| intros H; discriminate].
      destruct (py_div (b * psz / 100) price); simpl; intros H; [|discriminate].
      inversion H; subst. right. apply String.eqb_eq in Ha. auto.
  - intros rows sp c st Hrun. apply (backtest_loop_trades _ _ _ _ Hrun). constructor.
Qed.

(** ** Concrete inputs *)

Definition default_params : StrategyParams := mkParams None None None None.

(** BUY at 100, then a bar at 90 that hits the 2% stop. *)
Definition c1_rows : list Row :=
  [mkRow 0 100 (mkSignal "BUY"); mkRow 1 90 (mkSignal "HOLD")].

(** The §8 end-to-end scenario: BUY@100, HOLD, HOLD, SELL@110. *)
Definition c3_rows : list Row :=
  [mkRow 0 100 (mkSignal "BUY"); mkRow 1 100 (mkSignal "HOLD");
   mkRow 2 100 (mkSignal "HOLD"); mkRow 3 110 (mkSignal "SELL")].
Definition c3_params : StrategyParams := mkParams None None (Some (1 # 10)) (Some 20).

(** Stop at 0%: the position closes at its entry price, pnl exactly 0. *)
Definition c7_rows : list Row :=
  [mkRow 0 100 (mkSignal "BUY"); mkRow 1 100 (mkSignal "HOLD")].
Definition c7_params : StrategyParams := mkParams (Some 0) None None None.

(** BUY signals at t = 0, 1, 2 seconds. *)
Definition c8_rows : list Row :=
  [mkRow 0 100 (mkSignal "BUY"); mkRow 1 90 (mkSignal "BUY");
   mkRow 2 100 (mkSignal "BUY"); mkRow 3 200 (mkSignal "HOLD")].

(** Market data with a price and no history, and the same data with a real
    history that happens to equal the synthetic one. *)
Definition c6_now : Z := 1700000000.
Definition c6_md_synthetic : gmap string MarketEntry :=
  {[ "BTC/USDT" := EDict {[ "price" := VNum 100 ]} ]}.
Definition c6_md_real : gmap string MarketEntry :=
  {[ "BTC/USDT" := EDict (<["close" := VSeries (synthetic_close 100 c6_now)]>
                          (<["volume" := VNum 100]> {[ "price" := VNum 100 ]})) ]}.

(** ** C1 *)

(** C1 (code_bug).  At a concrete run the final balance is not the spec's
    reconciliation: BUY at 100 with 10% of 10000 and a stop hit at 90 ends
    at 10898.1, while [initial + Σ pnl_notional - Σ commission] is 9898.1.
    In general the gap is the entry notional of the closed trades
    ([Accounting.backtest_balance_identity]). *)
Theorem backtest_balance_not_reconciled :
  match backtest_loop c1_rows default_params (initial_state 10000) with
  | Ok st =>
      ls_balance st == 108981 # 10 /\
      reconciled_balance 10000 (fee_pct default_params) (ls_trades st) (ls_position st)
        == 98981 # 10 /\
      ~ ls_balance st == reconciled_balance 10000 (fee_pct default_params)
                           (ls_trades st) (ls_position st)
  | Raise _ => False
  end.
Proof.
  vm_compute. split; [reflexivity|]. split; [reflexivity|]. discriminate.
Qed.

(** ** C3 *)

(** C3 (code_bug).  The §8 scenario yields the one expected trade (entry
    100, exit 110, pnl 10%, closed by take-profit) but a final balance of
    12195.8, not about 10196 (= 10000 + 200 - 4.2); and [run_backtest]
    itself raises [AttributeError]. *)
Theorem end_to_end_scenario :
  match backtest_loop c3_rows c3_params (initial_state 10000) with
  | Ok st =>
      match ls_trades st with
      | [t] => t_entry_price t == 100 /\ t_exit_price t == 110 /\ pnl_pct t == 10 /\
               reason t = "take_profit"
      | _ => False
      end /\
      ls_balance st == 121958 # 10 /\
      reconciled_balance 10000 (fee_pct c3_params) (ls_trades st) (ls_position st)
        == 101958 # 10
  | Raise _ => False
  end /\
  run_backtest "BTC/USDT" 0 3 10000 c3_params c3_rows
    = Raise (AttributeError "_generate_report").
Proof.
  split; [|reflexivity].
  vm_compute. repeat split; reflexivity.
Qed.

(** ** C5 *)

(** C5 (counterexample).  One failing cycle followed by a good one: the
    loop stops after the first cycle in state "error"; the second cycle
    never runs. *)
Lemma trading_loop_halts_on_error_example :
  run_session [Raise (TypeError "bad cycle"); Ok tt] = mkLoopRun "error" 1 1 /\
  run_session [Raise (TypeError "bad cycle"); Ok tt] <> mkLoopRun "active" 2 1.
Proof. split; [reflexivity | discriminate]. Qed.

(** C5 (amended).  Cycles run while they succeed; the first error is logged
    and notified once, the state becomes "error" and the loop exits: no
    later cycle runs. *)
Theorem trading_loop_stops_at_first_error (pre : list unit) (e : PyExc)
    (post : list (result unit)) :
  run_session (map Ok pre ++ Raise e :: post) = mkLoopRun "error" (S (length pre)) 1.
Proof.
  unfold run_session.
  assert (H : forall n, trading_loop "active" (map Ok pre ++ Raise e :: post)
                          (mkLoopRun "active" n 0)
                        = mkLoopRun "error" (S (length pre + n)) 1).
  { induction pre as [|u pre IH]; intros n; simpl; [reflexivity|].
    rewrite IH. f_equal. lia. }
  rewrite H. f_equal. lia.
Qed.

(** ** C6 *)

Definition has_close (md : gmap string MarketEntry) (symbol : string) : bool :=
  match md !! symbol with
  | Some (EDict d) => bool_decide (is_Some (d !! "close"))
  | _ => false
  end.

(** C6 (counterexample).  No consumer of the prepared data can tell that its
    history was synthesized: data without history and data carrying a real
    history prepare to the same dict, so no function of the prepared dict
    flags exactly the synthetic case. *)
Lemma prepared_data_has_no_synthetic_flag :
  ~ exists detect : gmap string PyVal -> bool,
      forall md now d, prepare_market_data "BTC/USDT" md now = Ok d ->
        detect d = negb (has_close md "BTC/USDT").
Proof.
  intros [detect Hdet].
  assert (Heq : prepare_market_data "BTC/USDT" c6_md_synthetic c6_now
                = prepare_market_data "BTC/USDT" c6_md_real c6_now)
    by (vm_compute; reflexivity).
  destruct (prepare_market_data "BTC/USDT" c6_md_synthetic c6_now) as [d|] eqn:E1;
    [|vm_compute in E1; discriminate].
  pose proof (Hdet _ _ _ E1) as H1.
  symmetry in Heq. pose proof (Hdet _ _ _ Heq) as H2.
  rewrite H1 in H2. vm_compute in H2. discriminate.
Qed.

(** C6 (amended).  Data for the symbol without ['close'] and with a numeric
    price [p] is prepared without failing: ['close'] becomes the five-point
    series 0.97p, 0.98p, 0.99p, p, 1.01p over the last five hours, and the
    keys of the result are those of the input plus ['price'], ['volume'] and
    ['close'] — no flag marks the series as synthetic. *)
Theorem prepare_market_data_synthesizes (symbol : string)
    (md : gmap string MarketEntry) (now : Z) (d : gmap string PyVal) (p : Q) :
  md !! symbol = Some (EDict d) ->
  d !! "close" = None ->
  d !! "price" = Some (VNum p) ->
  exists d', prepare_market_data symbol md now = Ok d' /\
    d' !! "close" = Some (VSeries (synthetic_close p now)) /\
    dom d' = dom d ∪ {[ "price"; "volume"; "close" ]}.
Proof.
  intros Hmd Hclose Hprice. unfold prepare_market_data. rewrite Hmd, Hprice.
  assert (Hp : is_Some (d !! "price")) by eauto.
  destruct (d !! "volume") as [v|] eqn:Hvol.
  - rewrite Hclose, Hprice. eexists. split; [reflexivity|]. split.
    + apply lookup_insert_eq.
    + rewrite dom_insert_L.
      assert (Hv : "volume" ∈ dom d) by (apply elem_of_dom; eauto).
      assert (Hpr : "price" ∈ dom d) by (apply elem_of_dom; eauto).
      set_solver.
  - rewrite lookup_insert_ne by discriminate. rewrite Hclose.
    rewrite lookup_insert_ne by discriminate. rewrite Hprice.
    eexists. split; [reflexivity|]. split.
    + apply lookup_insert_eq.
    + rewrite !dom_insert_L.
      assert (Hpr : "price" ∈ dom d) by (apply elem_of_dom; eauto).
      set_solver.
Qed.

(** ** C7 *)

(** C7 (counterexample).  With a 0% stop the position closes at its entry
    price: one trade, pnl 0, no winning pnl at all, and yet the profit
    factor is [float('inf')]. *)
Lemma profit_factor_inf_without_wins :
  match backtest_loop c7_rows c7_params (initial_state 10000) with
  | Ok st =>
      match calculate_performance_metrics 10000 (ls_balance st) (ls_trades st) with
      | Ok m =>
          length (ls_trades st) = 1%nat /\
          sum_pnl (filter is_winning (ls_trades st)) == 0 /\
          sum_pnl (filter is_losing (ls_trades st)) == 0 /\
          profit_factor m = PFInf
      | Raise _ => False
      end
  | Raise _ => False
  end.
Proof. vm_compute. repeat split; reflexivity. Qed.

(** C7 (amended).  With a non-zero initial capital the metrics are
    computed; with no trades the profit factor is 0; otherwise it is
    [sum(winning pnl%) / |sum(losing pnl%)|] when the summed losing pnl is
    non-zero, and [inf] whenever it is zero, whatever the winning pnl. *)
Theorem profit_factor_spec (initial_capital final_balance : Q) (trades : list Trade) :
  ~ initial_capital == 0 ->
  exists m,
    calculate_performance_metrics initial_capital final_balance trades = Ok m /\
    (trades = [] -> profit_factor m = PFNum 0) /\
    (trades <> [] -> sum_pnl (filter is_losing trades) == 0 ->
       profit_factor m = PFInf) /\
    (trades <> [] -> ~ sum_pnl (filter is_losing trades) == 0 ->
       profit_factor m = PFNum (sum_pnl (filter is_winning trades)
                                / Qabs (sum_pnl (filter is_losing trades)))).
Proof.
  intros Hinit. destruct trades as [|t ts].
  - eexists. split; [reflexivity|]. split; [reflexivity|]. split; intros H; congruence.
  - assert (Hi : Qeq_bool initial_capital 0 = false).
    { apply not_true_iff_false. intros H. apply Qeq_bool_iff in H. contradiction. }
    assert (Hn : Qeq_bool (inject_Z (Z.of_nat (length (t :: ts)))) 0 = false).
    { apply not_true_iff_false. intros H. apply Qeq_bool_iff in H.
      unfold Qeq in H. simpl in H. lia. }
    set (L := sum_pnl (filter is_losing (t :: ts))).
    set (W := sum_pnl (filter is_winning (t :: ts))).
    assert (Hpf : exists pf,
               (if py_lt 0 (Qabs L)
                then let! q := py_div W (Qabs L) in Ok (PFNum q) else Ok PFInf) = Ok pf /\
               (L == 0 -> pf = PFInf) /\ (~ L == 0 -> pf = PFNum (W / Qabs L))).
    { unfold py_lt, py_div.
      destruct (Qle_bool (Qabs L) 0) eqn:Hle; cbn [negb].
      - apply Qle_bool_iff in Hle.
        assert (HL : L == 0).
        { apply (proj1 (Qabs_zero_iff _)). apply Qle_antisym; [exact Hle|apply Qabs_nonneg]. }
        exists PFInf. split; [reflexivity|]. split; [reflexivity|]. intros H; contradiction.
      - assert (Hz : Qeq_bool (Qabs L) 0 = false).
        { apply not_true_iff_false. intros H. apply Qeq_bool_iff in H.
          assert (Hle' : Qabs L <= 0) by (rewrite H; apply Qle_refl).
          apply Qle_bool_iff in Hle'. congruence. }
        rewrite Hz. exists (PFNum (W / Qabs L)). split; [reflexivity|]. split.
        + intros HL. apply (proj2 (Qabs_zero_iff _)) in HL.
          assert (Hle' : Qabs L <= 0) by (rewrite HL; apply Qle_refl).
          apply Qle_bool_iff in Hle'. congruence.
        + reflexivity. }
    destruct Hpf as [pf [Hpf [HInf HNum]]].
    unfold calculate_performance_metrics. unfold py_div at 1 2. rewrite Hi, Hn.
    cbn [bind]. fold L W. rewrite Hpf. cbn [bind].
    eexists. split; [reflexivity|]. cbn [profit_factor]. split; [discriminate|].
    split; intros _; assumption.
Qed.

(** ** C8 *)

(** C8 (counterexample).  In the backtest, BUY signals at t = 0, 1 and 2
    seconds: the first opens a position, the bar at t = 1 hits its stop, and
    the BUY at t = 2 (2 s after the first) opens a second position, closed by
    take-profit at t = 3: two trades. *)
Lemma backtest_reenters_within_interval :
  match backtest_loop c8_rows default_params (initial_state 10000) with
  | Ok st => map t_entry_time (ls_trades st) = [0%Z; 2%Z]
  | Raise _ => False
  end.
Proof. vm_compute. reflexivity. Qed.

(** C8 (amended).  Live path: once a position has been opened on
    ["BTCUSDT"] at time [t1], any signal executed at [t2] with
    [t2 - t1 < min_trade_interval] leaves the manager unchanged.  Backtest
    path: no re-entry interval is kept; a BUY bar with no open position
    opens a long position at that bar, whatever the time of the last
    trade. *)
Theorem reentry_interval (rm : RiskManager) (pm : PositionManager)
    (side : string) (qty sl tp fill t1 t2 : Q) (signal : LiveSignal)
    (ohlcv : list Q) (order : option Q)
    (time : Z) (price b bsl btp f psz : Q) :
  (t2 - t1 < min_trade_interval pm ->
   execute rm (open_position pm "BTCUSDT" side qty sl tp (Some fill) t1) signal t2 ohlcv order
   = Ok (open_position pm "BTCUSDT" side qty sl tp (Some fill) t1)) /\
  (~ price == 0 ->
   exists p, process_signal (mkSignal "BUY") price time b None bsl btp f psz
             = Ok (b - b * psz / 100 * f / 100, Some p, []) /\
             entry_time p = time /\ direction p = "long").
Proof.
  split.
  - intros Hlt. unfold execute.
    destruct (sig signal =? 0)%Z; [reflexivity|].
    assert (Hc : can_trade (open_position pm "BTCUSDT" side qty sl tp (Some fill) t1)
                           "BTCUSDT" t2 = false).
    { unfold can_trade, open_position. cbn [last_trade_time min_trade_interval].
      rewrite lookup_insert_eq. apply not_true_iff_false. intros H.
      apply Qle_bool_iff in H. apply Qlt_not_le in Hlt. contradiction. }
    rewrite Hc. reflexivity.
  - intros Hp. unfold process_signal. cbn [action String.eqb].
    unfold py_div at 1.
    destruct (Qeq_bool price 0) eqn:Hz.
    + apply Qeq_bool_iff in Hz. contradiction.
    + cbn [bind]. eexists. split; [reflexivity|]. split; reflexivity.
Qed.

(** ** Witnesses *)

Definition c6_data : gmap string PyVal := {[ "price" := VNum 100 ]}.

Lemma prepare_market_data_synthesizes_witness :
  (c6_md_synthetic !! "BTC/USDT" = Some (EDict c6_data) /\
   c6_data !! "close" = None /\ c6_data !! "price" = Some (VNum 100)) /\
  exists d', prepare_market_data "BTC/USDT" c6_md_synthetic c6_now = Ok d' /\
    d' !! "close" = Some (VSeries (synthetic_close 100 c6_now)) /\
    dom d' = dom c6_data ∪ {[ "price"; "volume"; "close" ]}.
Proof.
  split; [split; [|split]; vm_compute; reflexivity|].
  apply (prepare_market_data_synthesizes "BTC/USDT" c6_md_synthetic c6_now c6_data 100);
    vm_compute; reflexivity.
Defined.

Definition c7_ledger : list Trade :=
  [mkTrade 0 1 100 110 1 "long" 10 "take_profit";
   mkTrade 2 3 100 95 1 "long" (-5) "stop_loss"].

Lemma profit_factor_spec_witness :
  ~ (10000 : Q) == 0 /\
  exists m,
    calculate_performance_metrics 10000 10005 c7_ledger = Ok m /\
    (c7_ledger = [] -> profit_factor m = PFNum 0) /\
    (c7_ledger <> [] -> sum_pnl (filter is_losing c7_ledger) == 0 ->
       profit_factor m = PFInf) /\
    (c7_ledger <> [] -> ~ sum_pnl (filter is_losing c7_ledger) == 0 ->
       profit_factor m = PFNum (sum_pnl (filter is_winning c7_ledger)
                                / Qabs (sum_pnl (filter is_losing c7_ledger)))).
Proof.
  assert (H : ~ (10000 : Q) == 0) by (vm_compute; discriminate).
  split; [exact H|]. exact (profit_factor_spec 10000 10005 c7_ledger H).
Defined.

Definition c8_pm : PositionManager :=
  open_position new_position_manager "BTCUSDT" "BUY" 1 95 110 (Some 100) 100.

Lemma reentry_interval_witness :
  ((130 : Q) - 100 < min_trade_interval new_position_manager /\
   execute (new_risk_manager None) c8_pm (mkLiveSignal 1 95 110) 130 [] (Some 101)
   = Ok c8_pm) /\
  (~ (100 : Q) == 0 /\
   exists p, process_signal (mkSignal "BUY") 100 7 10000 None 2 4 (1 # 10) 10
             = Ok (10000 - 10000 * 10 / 100 * (1 # 10) / 100, Some p, []) /\
             entry_time p = 7%Z /\ direction p = "long").
Proof.
  pose proof (reentry_interval (new_risk_manager None) new_position_manager "BUY"
                1 95 110 100 100 130 (mkLiveSignal 1 95 110) [] (Some 101)
                7 100 10000 2 4 (1 # 10) 10) as [Hlive Hbt].
  split; split.
  - vm_compute. reflexivity.
  - apply Hlive. vm_compute. reflexivity.
  - vm_compute. discriminate.
  - apply Hbt. vm_compute. discriminate.
Defined.

Lemma backtest_long_only_sl_tp_witness :
  backtest_loop c3_rows c3_params (initial_state 10000)
    = Ok (match backtest_loop c3_rows c3_params (initial_state 10000) with
          | Ok st => st | Raise _ => initial_state 0 end) /\
  Forall long_sl_tp
    (ls_trades (match backtest_loop c3_rows c3_params (initial_state 10000) with
                | Ok st => st | Raise _ => initial_state 0 end)).
Proof.
  assert (Hrun : backtest_loop c3_rows c3_params (initial_state 10000)
    = Ok (match backtest_loop c3_rows c3_params (initial_state 10000) with
          | Ok st => st | Raise _ => initial_state 0 end)) by (vm_compute; reflexivity).
  split; [exact Hrun|].
  exact (proj2 (proj2 backtest_long_only_sl_tp) c3_rows c3_params 10000 _ Hrun).
Defined.

End Claims.

(* ================================================================== *)
(** * Further properties of the code *)

Module Extras.
Import Backtest Risk Live Signals.

Lemma div100 x : x / 100 = x * (1 # 100).
Proof. reflexivity. Qed.

Lemma pct_bounds x k : 0 <= x -> 0 <= k -> k <= 100 -> 0 <= x * k / 100 /\ x * k / 100 <= x.
Proof.
  intros Hx Hk Hk'.
  assert (H1 : 0 <= x * k) by (apply Qmult_le_0_compat; assumption).
  assert (H2 : 0 <= x * (100 - k)) by (apply Qmult_le_0_compat; lra).
  rewrite div100. split; lra.
Qed.

Ltac case_step H :=
  cbn [backtest_loop] in H;
  lazymatch type of H with
  | context [process_signal ?a1 ?a2 ?a3 ?a4 ?a5 ?a6 ?a7 ?a8 ?a9] =>
      let E := fresh "Hstep" in
      destruct (process_signal a1 a2 a3 a4 a5 a6 a7 a8 a9) as [[[?b ?p] ?nt]|?e] eqn:E;
      cbn [bind] in H; [|discriminate H]
  end.

Lemma qeq_bool_false x : ~ x == 0 -> Qeq_bool x 0 = false.
Proof. intros H. apply not_true_iff_false. intros E. apply Qeq_bool_iff in E. contradiction. Qed.

(** ** Replay loop *)


Lemma backtest_loop_equity_gen rows sp st st' :
  backtest_loop rows sp st = Ok st' ->
  map fst (ls_equity st') = map fst (ls_equity st) ++ map timestamp rows.
Proof.
  revert st. induction rows as [|row rows IH]; intros st Hrun.
  - inversion Hrun; subst. rewrite app_nil_r. reflexivity.
  - case_step Hrun.
    rewrite (IH _ Hrun). simpl. rewrite map_app, <- app_assoc. reflexivity.
Qed.

(** The equity curve of a run has one point per bar, carrying that bar's
    timestamp, in bar order; its first point is the initial capital. *)
Theorem backtest_equity_curve rows sp c st :
  backtest_loop rows sp (initial_state c) = Ok st ->
  map fst (ls_equity st) = map timestamp rows /\
  (forall row rest, rows = row :: rest -> head (ls_equity st) = Some (timestamp row, c)).
Proof.
  intros Hrun. split.
  - exact (backtest_loop_equity_gen _ _ _ _ Hrun).
  - intros row rest ->. case_step Hrun.
    assert (Hgen : forall rs st0 st1, backtest_loop rs sp st0 = Ok st1 ->
              exists tl, ls_equity st1 = ls_equity st0 ++ tl).
    { induction rs as [|r rs IH]; intros st0 st1 H.
      - inversion H; subst. exists []. rewrite app_nil_r. reflexivity.
      - case_step H.
        destruct (IH _ _ H) as [tl Htl]. rewrite Htl. simpl.
        exists ((timestamp r, ls_balance st0) :: tl). rewrite <- app_assoc. reflexivity. }
    destruct (Hgen _ _ _ Hrun) as [tl ->]. reflexivity.
Qed.

Definition amount_nonneg (pos : option Position) : Prop :=
  forall p, pos = Some p -> 0 <= amount p.

Lemma process_signal_nonneg s price time b pos sl tp f psz b' pos' nt :
  process_signal s price time b pos sl tp f psz = Ok (b', pos', nt) ->
  0 < price -> 0 <= b -> 0 <= psz -> psz <= 100 -> 0 <= f -> f <= 100 ->
  amount_nonneg pos -> 0 <= b' /\ amount_nonneg pos'.
Proof.
  intros Hstep Hp Hb Hs1 Hs2 Hf1 Hf2 Hpos. revert Hstep.
  unfold process_signal, close_long. destruct pos as [p|].
  - assert (Ha : 0 <= amount p) by (apply Hpos; reflexivity).
    assert (Hv : 0 <= amount p * price) by (apply Qmult_le_0_compat; lra).
    destruct (pct_bounds (amount p * price) f Hv Hf1 Hf2) as [Hc1 Hc2].
    destruct (String.eqb (direction p) "long");
      [| intros H; inversion H; subst; split; assumption].
    destruct (Qle_bool price (stop_loss p));
      [| destruct (Qle_bool (take_profit p) price)];
      try (intros H; inversion H; subst; split; assumption);
      (destruct (py_div price (entry_price p)); simpl; intros H; inversion H; subst;
       split; [lra | intros q Hq; discriminate]).
  - destruct (String.eqb (action s) "BUY");
      [| intros H; inversion H; subst; split; [assumption | intros q Hq; discriminate]].
    destruct (py_div (b * psz / 100) price) as [q|] eqn:E; simpl; intros H; inversion H; subst.
    apply py_div_ok in E as [_ ->].
    destruct (pct_bounds b psz Hb Hs1 Hs2) as [Hps1 Hps2].
    destruct (pct_bounds (b * psz / 100) f Hps1 Hf1 Hf2) as [Hc1 Hc2].
    split; [lra|]. intros q Hq. inversion Hq; subst. simpl.
    apply Qmult_le_0_compat; [exact Hps1|].
    apply Qlt_le_weak, Qinv_lt_0_compat, Hp.
Qed.

(** With positive prices, a position size and a fee between 0 and 100
    percent, and a non-negative initial capital, the balance stays
    non-negative after every bar, and so does every equity point. *)
Theorem backtest_balance_nonneg rows sp c st :
  Forall (fun r => 0 < row_price r) rows ->
  0 <= position_size_pct sp -> position_size_pct sp <= 100 ->
  0 <= fee_pct sp -> fee_pct sp <= 100 -> 0 <= c ->
  backtest_loop rows sp (initial_state c) = Ok st ->
  0 <= ls_balance st /\ Forall (fun pt => 0 <= snd pt) (ls_equity st).
Proof.
  intros Hprices Hs1 Hs2 Hf1 Hf2 Hc.
  assert (Hgen : forall rs st0 st1, Forall (fun r => 0 < row_price r) rs ->
            0 <= ls_balance st0 -> amount_nonneg (ls_position st0) ->
            Forall (fun pt => 0 <= snd pt) (ls_equity st0) ->
            backtest_loop rs sp st0 = Ok st1 ->
            0 <= ls_balance st1 /\ Forall (fun pt => 0 <= snd pt) (ls_equity st1)).
  { induction rs as [|r rs IH]; intros st0 st1 Hp Hb Ha He Hrun.
    - inversion Hrun; subst. split; assumption.
    - inversion Hp as [|? ? Hr Hrs]; subst.
      case_step Hrun.
      destruct (process_signal_nonneg _ _ _ _ _ _ _ _ _ _ _ _ Hstep Hr Hb Hs1 Hs2 Hf1 Hf2 Ha)
        as [Hb' Ha'].
      refine (IH (mkLoop b p _ _) _ Hrs Hb' Ha' _ Hrun).
      cbn [ls_equity]. apply Forall_app. split; [exact He|]. constructor; [exact Hb|constructor]. }
  apply Hgen; try assumption.
  - intros p Hp. discriminate.
  - constructor.
Qed.


Lemma sl_pnl_bound e x k : 0 < e -> x <= e * (1 - k / 100) -> (x / e - 1) * 100 <= - k.
Proof.
  intros He Hx.
  assert (Hr : x / e <= 1 - k / 100).
  { apply Qle_shift_div_r; [exact He|]. rewrite Qmult_comm. exact Hx. }
  rewrite div100 in Hr. lra.
Qed.

Lemma tp_pnl_bound e x k : 0 < e -> e * (1 + k / 100) <= x -> k <= (x / e - 1) * 100.
Proof.
  intros He Hx.
  assert (Hr : 1 + k / 100 <= x / e).
  { apply Qle_shift_div_l; [exact He|]. rewrite Qmult_comm. exact Hx. }
  rewrite div100 in Hr. lra.
Qed.

(** An open position as [_process_signal] creates it: positive entry, and
    stop-loss and take-profit levels at the configured percentages. *)
Definition position_levels (sp : StrategyParams) (pos : option Position) : Prop :=
  forall p, pos = Some p ->
    0 < entry_price p /\
    stop_loss p = entry_price p * (1 - sl_pct sp / 100) /\
    take_profit p = entry_price p * (1 + tp_pct sp / 100).

Definition trade_pnl_bounded (sp : StrategyParams) (t : Trade) : Prop :=
  (reason t = "stop_loss" /\ pnl_pct t <= - sl_pct sp) \/
  (reason t = "take_profit" /\ tp_pct sp <= pnl_pct t).

Lemma process_signal_levels sp s price time b pos b' pos' nt :
  process_signal s price time b pos (sl_pct sp) (tp_pct sp) (fee_pct sp)
    (position_size_pct sp) = Ok (b', pos', nt) ->
  0 < price -> position_levels sp pos ->
  position_levels sp pos' /\ Forall (trade_pnl_bounded sp) nt.
Proof.
  intros Hstep Hp Hpos. revert Hstep.
  unfold process_signal, close_long. destruct pos as [p|].
  - destruct (Hpos p eq_refl) as (He & Hsl & Htp).
    destruct (String.eqb (direction p) "long");
      [| intros H; inversion H; subst; split; [exact Hpos | constructor]].
    destruct (Qle_bool price (stop_loss p)) eqn:Esl;
      [| destruct (Qle_bool (take_profit p) price) eqn:Etp];
      try (intros H; inversion H; subst; split; [exact Hpos | constructor]);
      (destruct (py_div price (entry_price p)) as [r|] eqn:Ed; cbn [bind];
       intros H; inversion H; subst; clear H;
       apply py_div_ok in Ed as [_ ->];
       split; [intros q Hq; discriminate | constructor; [|constructor]]).
    + left. split; [reflexivity|]. simpl.
      apply Qle_bool_iff in Esl. rewrite Hsl in Esl.
      exact (sl_pnl_bound _ _ _ He Esl).
    + right. split; [reflexivity|]. simpl.
      apply Qle_bool_iff in Etp. rewrite Htp in Etp.
      exact (tp_pnl_bound _ _ _ He Etp).
  - destruct (String.eqb (action s) "BUY");
      [| intros H; inversion H; subst; split; [exact Hpos | constructor]].
    destruct (py_div _ price); cbn [bind]; intros H; inversion H; subst.
    split; [|constructor]. intros q Hq. inversion Hq; subst. simpl.
    split; [exact Hp | split; reflexivity].
Qed.

(** With positive prices, every trade of a run closed by the stop-loss
    loses at least [stop_loss_pct] percent and every trade closed by the
    take-profit gains at least [take_profit_pct] percent. *)
Theorem backtest_trade_pnl_bounds rows sp c st :
  Forall (fun r => 0 < row_price r) rows ->
  backtest_loop rows sp (initial_state c) = Ok st ->
  Forall (trade_pnl_bounded sp) (ls_trades st).
Proof.
  intros Hprices.
  assert (Hgen : forall rs st0 st1, Forall (fun r => 0 < row_price r) rs ->
            position_levels sp (ls_position st0) ->
            Forall (trade_pnl_bounded sp) (ls_trades st0) ->
            backtest_loop rs sp st0 = Ok st1 ->
            Forall (trade_pnl_bounded sp) (ls_trades st1)).
  { induction rs as [|r rs IH]; intros st0 st1 Hp Hl Ht Hrun.
    - inversion Hrun; subst. exact Ht.
    - inversion Hp as [|? ? Hr Hrs]; subst.
      case_step Hrun.
      destruct (process_signal_levels _ _ _ _ _ _ _ _ _ Hstep Hr Hl) as [Hl' Hnt].
      refine (IH (mkLoop b p _ _) _ Hrs Hl' _ Hrun).
      cbn [ls_trades]. apply Forall_app. split; assumption. }
  intros Hrun. apply (Hgen _ (initial_state c) _ Hprices); [intros p Hp; discriminate | constructor | exact Hrun].
Qed.

(** ** Performance metrics *)

Lemma winning_losing_partition (l : list Trade) :
  (length (filter is_winning l) + length (filter is_losing l))%nat = length l.
Proof.
  induction l as [|t l IH]; [reflexivity|].
  rewrite !filter_cons.
  unfold is_winning, is_losing, py_lt in *.
  destruct (Qle_bool (pnl_pct t) 0);
    repeat case_decide; simpl in *; try contradiction; lia.
Qed.

(** Every trade is counted as winning or as losing, never both, and the
    win rate lies between 0 and 1. *)
Theorem metrics_counts m init final trades :
  calculate_performance_metrics init final trades = Ok m ->
  (winning_trades m + losing_trades m)%nat = total_trades m /\
  total_trades m = length trades /\
  0 <= win_rate m /\ win_rate m <= 1.
Proof.
  unfold calculate_performance_metrics. destruct trades as [|t ts] eqn:Et.
  - intros H. inversion H; subst. simpl. repeat split; lra.
  - rewrite <- Et.
    destruct (py_div _ init); cbn [bind]; [|discriminate].
    destruct (py_div _ (inject_Z (Z.of_nat (length trades)))) as [w|] eqn:Ew;
      cbn [bind]; [|discriminate].
    destruct (if py_lt 0 _ then _ else _); cbn [bind]; [|discriminate].
    intros H. inversion H; subst; clear H. simpl.
    apply py_div_ok in Ew as [_ ->].
    pose proof (winning_losing_partition (t :: ts)) as Hpart.
    split; [exact Hpart|]. split; [reflexivity|].
    set (w := length (filter is_winning (t :: ts))) in *.
    set (n := length (t :: ts)) in *.
    assert (Hn : (0 < Z.of_nat n)%Z) by (subst n; simpl; lia).
    assert (Hwn : (Z.of_nat w <= Z.of_nat n)%Z) by lia.
    assert (Hn' : 0 < inject_Z (Z.of_nat n)) by (change 0 with (inject_Z 0); rewrite <- Zlt_Qlt; exact Hn).
    split.
    + apply Qle_shift_div_l; [exact Hn'|]. rewrite Qmult_0_l.
      change 0 with (inject_Z 0). rewrite <- Zle_Qle. lia.
    + apply Qle_shift_div_r; [exact Hn'|]. rewrite Qmult_1_l.
      rewrite <- Zle_Qle. exact Hwn.
Qed.

(** Leaving out the pandas drawdown and Sharpe columns (defined whenever
    the equity curve is non-empty, as it is in [run_backtest] once a trade
    exists), the metrics fail only on a non-empty ledger with a zero
    initial capital, and then with ZeroDivisionError; the profit-factor and
    win-rate divisions never fail. *)
Theorem metrics_error_iff init final trades :
  match calculate_performance_metrics init final trades with
  | Raise e => e = ZeroDivisionError /\ trades <> [] /\ init == 0
  | Ok _ => trades = [] \/ ~ init == 0
  end.
Proof.
  unfold calculate_performance_metrics. destruct trades as [|t ts] eqn:Et; [left; reflexivity|].
  rewrite <- Et. unfold py_div at 1.
  destruct (Qeq_bool init 0) eqn:Ei.
  - cbn [bind]. apply Qeq_bool_iff in Ei. subst. repeat split; [discriminate | exact Ei].
  - cbn [bind].
    assert (Hi : ~ init == 0) by (intros E; apply Qeq_bool_iff in E; congruence).
    assert (Hn : ~ inject_Z (Z.of_nat (length trades)) == 0).
    { subst. change 0 with (inject_Z 0). rewrite inject_Z_injective. simpl. lia. }
    unfold py_div at 1. rewrite (qeq_bool_false _ Hn). cbn [bind].
    destruct (py_lt 0 (Qabs (sum_pnl (filter is_losing trades)))) eqn:El.
    + unfold py_div. rewrite qeq_bool_false; [cbn [bind]; right; exact Hi|].
      unfold py_lt in El. apply negb_true_iff in El.
      intros E. rewrite E in El. discriminate.
    + cbn [bind]. right. exact Hi.
Qed.


(** ** Failures of the replay loop *)

Definition entry_nonzero (pos : option Position) : Prop :=
  forall p, pos = Some p -> ~ entry_price p == 0.

Lemma process_signal_raise s price time b pos sl tp f psz e :
  entry_nonzero pos ->
  process_signal s price time b pos sl tp f psz = Raise e ->
  e = ZeroDivisionError /\ pos = None /\ action s = "BUY" /\ price == 0.
Proof.
  intros Hpos. unfold process_signal, close_long. destruct pos as [p|].
  - pose proof (Hpos p eq_refl) as Hne. unfold py_div. rewrite (qeq_bool_false _ Hne).
    destruct (String.eqb (direction p) "long"); [|discriminate].
    destruct (Qle_bool price (stop_loss p)); [discriminate|].
    destruct (Qle_bool (take_profit p) price); discriminate.
  - destruct (String.eqb (action s) "BUY") eqn:Eb; [|discriminate].
    unfold py_div. destruct (Qeq_bool price 0) eqn:Ep; cbn [bind]; [|discriminate].
    intros H. inversion H; subst.
    apply String.eqb_eq in Eb. apply Qeq_bool_iff in Ep. auto.
Qed.

Lemma process_signal_entry_nonzero s price time b pos sl tp f psz b' pos' nt :
  entry_nonzero pos ->
  process_signal s price time b pos sl tp f psz = Ok (b', pos', nt) ->
  entry_nonzero pos'.
Proof.
  intros Hpos. unfold process_signal, close_long. destruct pos as [p|].
  - destruct (String.eqb (direction p) "long");
      [| intros H; inversion H; subst; exact Hpos].
    destruct (Qle_bool price (stop_loss p));
      [| destruct (Qle_bool (take_profit p) price)];
      try (intros H; inversion H; subst; exact Hpos);
      (destruct (py_div price (entry_price p)); cbn [bind]; intros H; inversion H;
       subst; intros q Hq; discriminate).
  - destruct (String.eqb (action s) "BUY");
      [| intros H; inversion H; subst; exact Hpos].
    unfold py_div. destruct (Qeq_bool price 0) eqn:Ep; cbn [bind]; [discriminate|].
    intros H. inversion H; subst. intros q Hq. inversion Hq; subst. simpl.
    intros E. apply Qeq_bool_iff in E. congruence.
Qed.

Lemma backtest_loop_raise_from rows sp st0 e :
  entry_nonzero (ls_position st0) ->
  backtest_loop rows sp st0 = Raise e ->
  e = ZeroDivisionError /\
  Exists (fun r => action (row_signal r) = "BUY" /\ row_price r == 0) rows.
Proof.
  revert st0. induction rows as [|r rs IH]; intros st0 Hpos Hrun; [discriminate|].
  cbn [backtest_loop] in Hrun.
  destruct (process_signal (row_signal r) (row_price r) (timestamp r) (ls_balance st0)
              (ls_position st0) (sl_pct sp) (tp_pct sp) (fee_pct sp)
              (position_size_pct sp)) as [[[b p] nt]|e'] eqn:Hstep; cbn [bind] in Hrun.
  - pose proof (process_signal_entry_nonzero _ _ _ _ _ _ _ _ _ _ _ _ Hpos Hstep) as Hp.
    destruct (IH (mkLoop b p (ls_trades st0 ++ nt) (ls_equity st0 ++ [(timestamp r, ls_balance st0)]))
                Hp Hrun) as [He Hex].
    split; [exact He|]. apply Exists_cons_tl. exact Hex.
  - inversion Hrun; subst.
    destruct (process_signal_raise _ _ _ _ _ _ _ _ _ _ Hpos Hstep) as (He & _ & Hb & Hz).
    split; [exact He|]. apply Exists_cons_hd. split; assumption.
Qed.

(** A replay from the initial state fails only with ZeroDivisionError,
    and only on a BUY bar whose price is zero. *)
Theorem backtest_loop_raise rows sp c e :
  backtest_loop rows sp (initial_state c) = Raise e ->
  e = ZeroDivisionError /\
  Exists (fun r => action (row_signal r) = "BUY" /\ row_price r == 0) rows.
Proof.
  apply backtest_loop_raise_from. intros p Hp. discriminate.
Qed.

(** A replay from the initial state over bars with non-zero prices always
    completes. *)
Theorem backtest_loop_total rows sp c :
  Forall (fun r => ~ row_price r == 0) rows ->
  exists st, backtest_loop rows sp (initial_state c) = Ok st.
Proof.
  intros Hp. destruct (backtest_loop rows sp (initial_state c)) as [st|e] eqn:Hrun;
    [exists st; reflexivity|].
  assert (H0 : entry_nonzero (ls_position (initial_state c))) by (intros p Hp'; discriminate).
  destruct (backtest_loop_raise_from _ _ _ _ H0 Hrun) as [_ Hex].
  apply Exists_exists in Hex as (r & Hr & _ & Hz).
  rewrite Forall_forall in Hp. destruct (Hp r Hr Hz).
Qed.


(** ** Live position manager *)

(** [execute] never changes the manager: it returns it unchanged when the
    signal is 0 or the trade interval has not elapsed, and raises in every
    other case, NameError on a non-empty OHLCV answer and TypeError on an
    empty one. *)
Theorem execute_outcome rm pm signal now ohlcv order :
  match execute rm pm signal now ohlcv order with
  | Ok pm' => pm' = pm /\ (sig signal = 0%Z \/ can_trade pm "BTCUSDT" now = false)
  | Raise e => sig signal <> 0%Z /\ can_trade pm "BTCUSDT" now = true /\
               e = match ohlcv with
                   | [] => TypeError "unexpected keyword argument risk_per_trade"
                   | _ :: _ => NameError "pd"
                   end
  end.
Proof.
  unfold execute. destruct (Z.eqb_spec (sig signal) 0) as [H0|H0]; [auto|].
  destruct (can_trade pm "BTCUSDT" now) eqn:Ec; cbn [negb]; [|auto].
  destruct ohlcv; cbn [get_volatility bind]; [|auto].
  vm_compute. auto.
Qed.

Lemma close_position_idem pm s :
  close_position (close_position pm s) s = close_position pm s.
Proof. unfold close_position. simpl. rewrite delete_delete_eq. reflexivity. Qed.

Lemma monitor_one_some pm s position q :
  monitor_one pm s position (Some q) =
  Ok (if position_triggered position q then close_position pm s else pm).
Proof.
  unfold monitor_one, position_triggered.
  destruct (String.eqb (side position) "BUY"), (String.eqb (side position) "SELL"),
    (Qle_bool q (l_stop_loss position)), (Qle_bool (l_stop_loss position) q),
    (Qle_bool (l_take_profit position) q), (Qle_bool q (l_take_profit position));
    cbn; rewrite ?close_position_idem; reflexivity.
Qed.

Definition monitor_step (price_of : string -> option Q)
    (acc : result PositionManager) (kv : string * LivePosition) : result PositionManager :=
  let! pm' := acc in monitor_one pm' kv.1 kv.2 (price_of kv.1).

Lemma monitor_step_ok price_of pm kv :
  monitor_step price_of (Ok pm) kv = monitor_one pm kv.1 kv.2 (price_of kv.1).
Proof. reflexivity. Qed.

(** Whether [monitor_positions] closes the position [v] held on [k]. *)
Definition triggered_at (price_of : string -> option Q) (k : string) (v : LivePosition) : bool :=
  match price_of k with Some q => position_triggered v q | None => false end.

Lemma monitor_fold price_of l m t i :
  (forall kv, In kv l -> is_Some (price_of kv.1)) ->
  exists m', fold_left (monitor_step price_of) l (Ok (mkPM m t i)) = Ok (mkPM m' t i) /\
    forall k, m' !! k =
      if existsb (fun kv => String.eqb kv.1 k && triggered_at price_of kv.1 kv.2) l
      then None else m !! k.
Proof.
  revert m. induction l as [|[k0 v0] l IH]; intros m Hp.
  - exists m. split; [reflexivity|]. intros k. reflexivity.
  - destruct (Hp (k0, v0) (or_introl eq_refl)) as [q Hq]. simpl in Hq.
    cbn [fold_left]. rewrite monitor_step_ok. cbn [fst snd]. rewrite Hq, monitor_one_some.
    set (m1 := if position_triggered v0 q then delete k0 m else m).
    assert (Hm1 : (if position_triggered v0 q then close_position (mkPM m t i) k0 else mkPM m t i)
                  = mkPM m1 t i) by (subst m1; destruct (position_triggered v0 q); reflexivity).
    rewrite Hm1.
    destruct (IH m1 (fun kv H => Hp kv (or_intror H))) as [m' [Hf Hl]].
    exists m'. split; [exact Hf|]. intros k. rewrite Hl.
    cbn [existsb fst snd]. replace (triggered_at price_of k0 v0) with (position_triggered v0 q) by (unfold triggered_at; rewrite Hq; reflexivity).
    destruct (existsb _ l); [rewrite orb_true_r; reflexivity|]. rewrite orb_false_r.
    subst m1. destruct (String.eqb_spec k0 k) as [->|Hne];
      destruct (position_triggered v0 q); cbn [andb];
      rewrite ?lookup_delete_eq, ?lookup_delete_ne by exact Hne; reflexivity.
Qed.

(** When a price is available for every open position, [monitor_positions]
    succeeds, keeps the trade timers and the interval, closes exactly the
    positions whose stop-loss or take-profit level the price reaches, and
    keeps every other position as it was. *)
Theorem monitor_positions_closes_triggered pm price_of :
  (forall k v, positions pm !! k = Some v -> is_Some (price_of k)) ->
  exists pm', monitor_positions pm price_of = Ok pm' /\
    last_trade_time pm' = last_trade_time pm /\
    min_trade_interval pm' = min_trade_interval pm /\
    forall k, positions pm' !! k =
      match positions pm !! k with
      | Some v => if triggered_at price_of k v then None else Some v
      | None => None
      end.
Proof.
  intros Hall. destruct pm as [m t i]. cbn [positions last_trade_time min_trade_interval] in *.
  destruct (monitor_fold price_of (map_to_list m) m t i) as [m' [Hf Hl]].
  { intros [k v] Hin. apply (Hall k v). apply elem_of_map_to_list, list_elem_of_In, Hin. }
  exists (mkPM m' t i). split; [exact Hf|]. split; [reflexivity|]. split; [reflexivity|].
  intros k. cbn [positions]. rewrite Hl.
  destruct (m !! k) as [v|] eqn:Hk.
  - assert (Hex : existsb (fun kv => String.eqb kv.1 k && triggered_at price_of kv.1 kv.2)
                    (map_to_list m) = triggered_at price_of k v).
    { destruct (triggered_at price_of k v) eqn:Ht.
      - apply existsb_exists. exists (k, v). split.
        + apply list_elem_of_In, elem_of_map_to_list, Hk.
        + cbn [fst snd]. rewrite String.eqb_refl, Ht. reflexivity.
      - apply not_true_iff_false. intros Hx. apply existsb_exists in Hx as [[k' v'] [Hin Hx]].
        apply andb_true_iff in Hx as [Hkk Hx]. cbn [fst snd] in Hkk, Hx.
        apply String.eqb_eq in Hkk. subst k'.
        apply list_elem_of_In, elem_of_map_to_list in Hin. rewrite Hk in Hin.
        inversion Hin; subst. congruence. }
    rewrite Hex. destruct (triggered_at price_of k v); reflexivity.
  - destruct (existsb _ _); reflexivity.
Qed.

Lemma monitor_fold_raise price_of l e :
  fold_left (monitor_step price_of) l (Raise e) = Raise e.
Proof. induction l; [reflexivity|]. exact IHl. Qed.

Lemma monitor_fold_missing price_of l acc :
  (forall e, acc = Raise e -> e = IndexError) ->
  (exists kv, In kv l /\ price_of kv.1 = None) ->
  fold_left (monitor_step price_of) l acc = Raise IndexError.
Proof.
  revert acc. induction l as [|kv0 l IH]; intros acc Hacc [kv [Hin Hnone]]; [destruct Hin|].
  cbn [fold_left].
  assert (Hstep : forall e, monitor_step price_of acc kv0 = Raise e -> e = IndexError).
  { intros e. unfold monitor_step. destruct acc as [pm|e0]; cbn [bind].
    - unfold monitor_one. destruct (price_of kv0.1); [discriminate|]. congruence.
    - intros H. inversion H; subst. apply Hacc. reflexivity. }
  destruct Hin as [<-|Hin].
  - unfold monitor_step at 2. destruct acc as [pm|e0]; cbn [bind].
    + rewrite Hnone. apply monitor_fold_raise.
    + rewrite (Hacc e0 eq_refl). apply monitor_fold_raise.
  - apply IH; [exact Hstep|]. exists kv. split; assumption.
Qed.

(** If some open position has no price ([get_ohlcv] answers an empty
    list), [monitor_positions] raises IndexError. *)
Theorem monitor_positions_missing_price pm price_of k v :
  positions pm !! k = Some v -> price_of k = None ->
  monitor_positions pm price_of = Raise IndexError.
Proof.
  intros Hk Hp. apply (monitor_fold_missing price_of _ (Ok pm)); [discriminate|].
  exists (k, v). split; [|exact Hp]. apply list_elem_of_In, elem_of_map_to_list, Hk.
Qed.


(** ** Risk manager *)

(** [validate_signal] accepts exactly the dicts whose confidence is a
    number of at least 0.6; a missing confidence or a non-dict is refused,
    and a non-numeric confidence raises TypeError. *)
Theorem validate_signal_spec signal :
  match validate_signal signal with
  | Ok true => exists d c, signal = Some d /\ d !! "confidence" = Some (SNum c) /\ 6 # 10 <= c
  | Ok false => signal = None \/ exists d, signal = Some d /\
                  (d !! "confidence" = None \/
                   exists c, d !! "confidence" = Some (SNum c) /\ c < 6 # 10)
  | Raise e => exists d descr, signal = Some d /\ d !! "confidence" = Some (SOther descr) /\
               e = TypeError "'<' not supported"
  end.
Proof.
  unfold validate_signal. destruct signal as [d|]; [|left; reflexivity].
  destruct (d !! "confidence") as [[c|descr]|] eqn:Ec.
  - unfold py_lt. destruct (Qle_bool (6 # 10) c) eqn:Ele; cbn [negb].
    + apply Qle_bool_iff in Ele. exists d, c. auto.
    + right. exists d. split; [reflexivity|]. right. exists c. split; [exact Ec|].
      apply Qnot_le_lt. intros H. apply Qle_bool_iff in H. congruence.
  - exists d, descr. auto.
  - right. exists d. auto.
Qed.

(** For a positive entry price the BUY stop lies below the entry and the
    SELL stop above it; any other action puts the stop at the entry. *)
Theorem calculate_stop_loss_side symbol entry action :
  0 < entry ->
  (action = "BUY" -> calculate_stop_loss symbol entry action < entry) /\
  (action = "SELL" -> entry < calculate_stop_loss symbol entry action) /\
  (action <> "BUY" -> action <> "SELL" -> calculate_stop_loss symbol entry action = entry).
Proof.
  intros He. unfold calculate_stop_loss. repeat split.
  - intros ->. cbn. lra.
  - intros ->. cbn. lra.
  - intros Hb Hs. apply String.eqb_neq in Hb, Hs. rewrite Hb, Hs. reflexivity.
Qed.

(** ** Market data and signals *)

Ltac lk := repeat first [ rewrite lookup_insert_eq | rewrite lookup_insert_ne by discriminate
                        | rewrite lookup_empty ].

(** On a dict entry, [_prepare_market_data] only adds the missing
    [price], [volume] and [close] fields: every field of the entry is kept
    with its value and no other field is added.  It raises only when the
    entry has no [close] and its [price] is neither a number nor a Series. *)
Theorem prepare_market_data_dict symbol md now d :
  md !! symbol = Some (EDict d) ->
  match prepare_market_data symbol md now with
  | Ok d' => d ⊆ d' /\
      (forall k, k <> "price" -> k <> "volume" -> k <> "close" -> d' !! k = d !! k)
  | Raise e => d !! "close" = None /\
      match d !! "price" with Some (VStr _) | Some (VObject _) => True | _ => False end /\
      e = TypeError "can't multiply sequence by non-int of type 'float'"
  end.
Proof.
  intros Hmd. unfold prepare_market_data. rewrite Hmd. cbv beta iota zeta.
  destruct (d !! "price") as [vp|] eqn:Ep; lk;
  destruct (d !! "volume") as [vv|] eqn:Ev; lk;
  destruct (d !! "close") as [vc|] eqn:Ec; lk; rewrite ?Ep;
  try (destruct vp as [q|sr|str|o]); cbv iota;
  try (split; [ repeat apply insert_subseteq_r; lk; try assumption; reflexivity
              | intros k H1 H2 H3; rewrite !lookup_insert_ne by congruence; reflexivity ]);
  repeat split; reflexivity || exact I || assumption.
Qed.

(** Whatever the market data, a successful [_prepare_market_data] returns
    a dict with [price], [volume] and [close] fields. *)
Theorem prepare_market_data_fields symbol md now d' :
  prepare_market_data symbol md now = Ok d' ->
  is_Some (d' !! "price") /\ is_Some (d' !! "volume") /\ is_Some (d' !! "close").
Proof.
  unfold prepare_market_data, create_default_market_data.
  destruct (md !! symbol) as [[d|]|]; cbv beta iota zeta; lk.
  - destruct (d !! "price") as [vp|] eqn:Ep; lk;
    destruct (d !! "volume") as [vv|] eqn:Ev; lk;
    destruct (d !! "close") as [vc|] eqn:Ec; lk; rewrite ?Ep;
    try (destruct vp as [q|sr|str|o]); cbv iota; intros H; inversion H; subst; lk;
    rewrite ?Ep, ?Ev, ?Ec; repeat split; eexists; reflexivity.
  - intros H. inversion H; subst. lk. repeat split; eexists; reflexivity.
  - intros H. inversion H; subst. lk. repeat split; eexists; reflexivity.
Qed.

Definition conf_of (pr : Prediction) : Q :=
  match p_confidence pr with Some c => c | None => 1 # 2 end.

Definition dir_of (pr : Prediction) : Q :=
  match p_direction pr with Some d => d | None => 0 end.

(** [_prediction_to_signal] passes the confidence through (0.5 when
    absent) and answers BUY exactly when the direction is positive and the
    confidence reaches the buy threshold, SELL exactly when the direction
    is negative and the confidence reaches the sell threshold, HOLD
    otherwise. *)
Theorem prediction_to_signal_spec cfg pr :
  exists action, prediction_to_signal cfg (Some pr) = Ok (action, conf_of pr) /\
    (action = "BUY" <-> 0 < dir_of pr /\ cfg_buy_threshold cfg <= conf_of pr) /\
    (action = "SELL" <-> dir_of pr < 0 /\ cfg_sell_threshold cfg <= conf_of pr) /\
    (action = "HOLD" <-> ~ (0 < dir_of pr /\ cfg_buy_threshold cfg <= conf_of pr) /\
                         ~ (dir_of pr < 0 /\ cfg_sell_threshold cfg <= conf_of pr)).
Proof.
  unfold prediction_to_signal. fold (conf_of pr) (dir_of pr).
  set (c := conf_of pr). set (dr := dir_of pr).
  set (bt := cfg_buy_threshold cfg). set (st := cfg_sell_threshold cfg).
  unfold py_lt.
  destruct (Qle_bool dr 0) eqn:E1, (Qle_bool bt c) eqn:E2,
    (Qle_bool 0 dr) eqn:E3, (Qle_bool st c) eqn:E4; cbn [negb andb];
    eexists; (split; [reflexivity|]);
    rewrite ?Qle_bool_iff in *;
    repeat match goal with
           | H : Qle_bool _ _ = false |- _ =>
               apply not_true_iff_false in H; rewrite Qle_bool_iff in H;
               apply Qnot_le_lt in H
           end;
    repeat split; intros; try discriminate; try reflexivity;
    repeat match goal with H : _ /\ _ |- _ => destruct H end;
    try lra; try (exfalso; lra); tauto.
Qed.


Lemma prediction_to_signal_action cfg prediction ac :
  prediction_to_signal cfg prediction = Ok ac ->
  ac.1 = "BUY" \/ ac.1 = "SELL" \/ ac.1 = "HOLD".
Proof.
  unfold prediction_to_signal. destruct prediction as [pr|]; [|discriminate].
  intros H. inversion H; subst. cbn [fst].
  destruct (_ && _); [auto|]. destruct (_ && _); auto.
Qed.

(** [generate_signal] never raises: its answer is always for the
    requested symbol, with action BUY, SELL or HOLD. *)
Theorem generate_signal_shape {F : Type} cfg has_models symbol md other_truthy now
    (extract : string -> gmap string PyVal -> result (option F))
    (predict : string -> F -> result (option Prediction)) :
  let so := generate_signal cfg has_models symbol md other_truthy now extract predict in
  so_symbol so = symbol /\
  (so_action so = "BUY" \/ so_action so = "SELL" \/ so_action so = "HOLD").
Proof.
  unfold generate_signal. cbv zeta.
  destruct (bool_decide (md = ∅) || negb has_models); [cbn; auto|].
  destruct (negb _); [cbn; auto|].
  destruct (prepare_market_data symbol md now) as [prepared|]; cbn [bind]; [|cbn; auto].
  destruct (extract symbol prepared) as [[f|]|]; cbn [bind]; [|cbn; auto|cbn; auto].
  destruct (predict symbol f) as [prediction|]; cbn [bind]; [|cbn; auto].
  destruct (prediction_to_signal cfg prediction) as [ac|] eqn:Hp; cbn [bind]; [|cbn; auto].
  cbn [so_symbol so_action]. split; [reflexivity|].
  exact (prediction_to_signal_action _ _ _ Hp).
Qed.

(** A BUY or SELL from [generate_signal] requires models and non-empty
    market data, and comes from a run in which the data was prepared, the
    features extracted and a prediction made; the action and confidence
    are what [_prediction_to_signal] gives for that prediction. *)
Theorem generate_signal_not_hold {F : Type} cfg has_models symbol md other_truthy now
    (extract : string -> gmap string PyVal -> result (option F))
    (predict : string -> F -> result (option Prediction)) :
  let so := generate_signal cfg has_models symbol md other_truthy now extract predict in
  so_action so <> "HOLD" ->
  has_models = true /\ md <> ∅ /\
  exists prepared f pr,
    prepare_market_data symbol md now = Ok prepared /\
    extract symbol prepared = Ok (Some f) /\
    predict symbol f = Ok (Some pr) /\
    prediction_to_signal cfg (Some pr) = Ok (so_action so, so_confidence so).
Proof.
  unfold generate_signal. cbv zeta.
  destruct (bool_decide (md = ∅)) eqn:Hmd, has_models; cbn [orb negb];
    try (cbn; intros H; exfalso; apply H; reflexivity).
  apply bool_decide_eq_false in Hmd.
  destruct (negb _); [cbn; intros H; exfalso; apply H; reflexivity|].
  destruct (prepare_market_data symbol md now) as [prepared|] eqn:E1; cbn [bind];
    [|cbn; intros H; exfalso; apply H; reflexivity].
  destruct (extract symbol prepared) as [[f|]|] eqn:E2; cbn [bind];
    try (cbn; intros H; exfalso; apply H; reflexivity).
  destruct (predict symbol f) as [[pr|]|] eqn:E3; cbn [bind];
    try (cbn; intros H; exfalso; apply H; reflexivity).
  destruct (prediction_to_signal cfg (Some pr)) as [[a c]|] eqn:E4; cbn [bind];
    [|cbn; intros H; exfalso; apply H; reflexivity].
  intros _. split; [reflexivity|]. split; [exact Hmd|].
  exists prepared, f, pr. cbn [so_action so_confidence fst snd]. auto.
Qed.


(** ** Trader life cycle *)



(** ** Concrete runs *)

(** BUY at 100, a take-profit at 110, BUY at 50, a stop-loss at 45. *)
Definition x_rows : list Row :=
  [mkRow 0 100 (mkSignal "BUY"); mkRow 1 101 (mkSignal "HOLD");
   mkRow 2 110 (mkSignal "HOLD"); mkRow 3 50 (mkSignal "BUY");
   mkRow 4 45 (mkSignal "HOLD")].

Definition x_params : StrategyParams := mkParams None None None None.

Definition x_run : LoopState :=
  match backtest_loop x_rows x_params (initial_state 10000) with
  | Ok st => st
  | Raise _ => initial_state 0
  end.

Definition x_metrics : Metrics :=
  match calculate_performance_metrics 10000 (ls_balance x_run) (ls_trades x_run) with
  | Ok m => m
  | Raise _ => mkMetrics 0 PFInf 0 0 0 0
  end.

Lemma x_run_ok : backtest_loop x_rows x_params (initial_state 10000) = Ok x_run.
Proof. vm_compute. reflexivity. Qed.

Lemma x_prices_pos : Forall (fun r => 0 < row_price r) x_rows.
Proof. repeat constructor. Qed.

Lemma backtest_equity_curve_witness :
  backtest_loop x_rows x_params (initial_state 10000) = Ok x_run /\
  map fst (ls_equity x_run) = map timestamp x_rows.
Proof.
  split; [exact x_run_ok|].
  exact (proj1 (backtest_equity_curve x_rows x_params 10000 x_run x_run_ok)).
Defined.

Lemma backtest_balance_nonneg_witness :
  backtest_loop x_rows x_params (initial_state 10000) = Ok x_run /\
  0 <= ls_balance x_run /\ Forall (fun pt => 0 <= snd pt) (ls_equity x_run).
Proof.
  split; [exact x_run_ok|].
  apply (backtest_balance_nonneg x_rows x_params 10000 x_run x_prices_pos);
    [vm_compute; discriminate .. | exact x_run_ok].
Defined.

Lemma backtest_trade_pnl_bounds_witness :
  length (ls_trades x_run) = 2%nat /\
  Forall (trade_pnl_bounded x_params) (ls_trades x_run).
Proof.
  split; [vm_compute; reflexivity|].
  exact (backtest_trade_pnl_bounds x_rows x_params 10000 x_run x_prices_pos x_run_ok).
Defined.

Lemma metrics_counts_witness :
  calculate_performance_metrics 10000 (ls_balance x_run) (ls_trades x_run) = Ok x_metrics /\
  total_trades x_metrics = 2%nat /\ winning_trades x_metrics = 1%nat /\
  0 <= win_rate x_metrics /\ win_rate x_metrics <= 1.
Proof.
  assert (Hm : calculate_performance_metrics 10000 (ls_balance x_run) (ls_trades x_run)
               = Ok x_metrics) by (vm_compute; reflexivity).
  split; [exact Hm|]. split; [vm_compute; reflexivity|]. split; [vm_compute; reflexivity|].
  exact (proj2 (proj2 (metrics_counts x_metrics 10000 _ _ Hm))).
Defined.

Definition x_zero_rows : list Row :=
  [mkRow 0 100 (mkSignal "HOLD"); mkRow 1 0 (mkSignal "BUY")].

Lemma backtest_loop_raise_witness :
  backtest_loop x_zero_rows x_params (initial_state 10000) = Raise ZeroDivisionError /\
  Exists (fun r => action (row_signal r) = "BUY" /\ row_price r == 0) x_zero_rows.
Proof.
  assert (H : backtest_loop x_zero_rows x_params (initial_state 10000) = Raise ZeroDivisionError)
    by (vm_compute; reflexivity).
  split; [exact H|]. exact (proj2 (backtest_loop_raise _ _ _ _ H)).
Defined.

Lemma backtest_loop_total_witness :
  Forall (fun r => ~ row_price r == 0) x_rows /\
  exists st, backtest_loop x_rows x_params (initial_state 10000) = Ok st.
Proof.
  assert (H : Forall (fun r => ~ row_price r == 0) x_rows)
    by (repeat constructor; vm_compute; discriminate).
  split; [exact H|]. exact (backtest_loop_total x_rows x_params 10000 H).
Defined.

Lemma backtest_balance_identity_witness :
  backtest_loop x_rows x_params (initial_state 10000) = Ok x_run /\
  ls_balance x_run == Accounting.reconciled_balance 10000 (fee_pct x_params) (ls_trades x_run)
                        (ls_position x_run)
                      + Accounting.qsum (map Accounting.trade_entry_notional (ls_trades x_run)).
Proof.
  split; [exact x_run_ok|].
  exact (Accounting.backtest_balance_identity x_rows x_params 10000 x_run x_run_ok).
Defined.

(** Two open positions: a long BTC one whose stop is hit at 85, and a
    short ETH one that stays open at 2000. *)
Definition x_pm : PositionManager :=
  mkPM (<["BTCUSDT" := mkLivePosition "BUY" 1 100 90 110]>
          {[ "ETHUSDT" := mkLivePosition "SELL" 2 2000 2100 1800 ]})
       {[ "BTCUSDT" := 0 ]} 60.

Definition x_prices (k : string) : option Q :=
  if String.eqb k "BTCUSDT" then Some 85 else Some 2000.

Lemma monitor_positions_closes_triggered_witness :
  exists pm', monitor_positions x_pm x_prices = Ok pm' /\
    positions pm' !! "BTCUSDT" = None /\ is_Some (positions pm' !! "ETHUSDT").
Proof.
  assert (Hall : forall k v, positions x_pm !! k = Some v -> is_Some (x_prices k)).
  { intros k v _. unfold x_prices. destruct (String.eqb k "BTCUSDT"); eexists; reflexivity. }
  destruct (monitor_positions_closes_triggered x_pm x_prices Hall) as (pm' & Hm & _ & _ & Hk).
  exists pm'. split; [exact Hm|]. split.
  - rewrite Hk. vm_compute. reflexivity.
  - rewrite Hk. vm_compute. eexists. reflexivity.
Defined.

Lemma monitor_positions_missing_price_witness :
  positions x_pm !! "ETHUSDT" = Some (mkLivePosition "SELL" 2 2000 2100 1800) /\
  monitor_positions x_pm (fun k => if String.eqb k "ETHUSDT" then None else Some 100)
    = Raise IndexError.
Proof.
  assert (Hk : positions x_pm !! "ETHUSDT" = Some (mkLivePosition "SELL" 2 2000 2100 1800))
    by (vm_compute; reflexivity).
  split; [exact Hk|].
  apply (monitor_positions_missing_price x_pm _ "ETHUSDT" _ Hk). reflexivity.
Defined.

Lemma calculate_stop_loss_side_witness :
  0 < 100 /\ calculate_stop_loss "BTC/USDT" 100 "BUY" < 100 /\
  100 < calculate_stop_loss "BTC/USDT" 100 "SELL".
Proof.
  assert (H : 0 < 100) by (vm_compute; reflexivity).
  destruct (calculate_stop_loss_side "BTC/USDT" 100 "BUY" H) as [Hb _].
  destruct (calculate_stop_loss_side "BTC/USDT" 100 "SELL" H) as [_ [Hs _]].
  split; [exact H|]. split; [apply Hb; reflexivity | apply Hs; reflexivity].
Defined.

(** A symbol whose entry has a price and an extra field, but no volume or
    close. *)
Definition x_entry : gmap string PyVal :=
  <["rsi" := VNum 55]> {[ "price" := VNum 100 ]}.

Definition x_md : gmap string MarketEntry := {[ "BTC/USDT" := EDict x_entry ]}.

Definition x_prepared : gmap string PyVal :=
  match prepare_market_data "BTC/USDT" x_md 1700000000 with
  | Ok d => d
  | Raise _ => ∅
  end.

Lemma prepare_market_data_dict_witness :
  x_md !! "BTC/USDT" = Some (EDict x_entry) /\
  prepare_market_data "BTC/USDT" x_md 1700000000 = Ok x_prepared /\
  x_entry ⊆ x_prepared.
Proof.
  assert (H : x_md !! "BTC/USDT" = Some (EDict x_entry)) by (vm_compute; reflexivity).
  assert (Hok : prepare_market_data "BTC/USDT" x_md 1700000000 = Ok x_prepared)
    by (vm_compute; reflexivity).
  split; [exact H|]. split; [exact Hok|].
  pose proof (prepare_market_data_dict "BTC/USDT" x_md 1700000000 x_entry H) as P.
  rewrite Hok in P. exact (proj1 P).
Defined.

Lemma prepare_market_data_fields_witness :
  prepare_market_data "BTC/USDT" x_md 1700000000 = Ok x_prepared /\
  is_Some (x_prepared !! "close").
Proof.
  assert (Hok : prepare_market_data "BTC/USDT" x_md 1700000000 = Ok x_prepared)
    by (vm_compute; reflexivity).
  split; [exact Hok|].
  exact (proj2 (proj2 (prepare_market_data_fields _ _ _ _ Hok))).
Defined.

Definition x_extract (_ : string) (_ : gmap string PyVal) : result (option unit) :=
  Ok (Some tt).

Definition x_predict (_ : string) (_ : unit) : result (option Prediction) :=
  Ok (Some (mkPrediction (Some (9 # 10)) (Some 1))).

Lemma generate_signal_not_hold_witness :
  so_action (generate_signal (mkConfig None) true "BTC/USDT" x_md false 1700000000
               x_extract x_predict) = "BUY" /\
  prediction_to_signal (mkConfig None) (Some (mkPrediction (Some (9 # 10)) (Some 1)))
    = Ok ("BUY", 9 # 10).
Proof.
  assert (Hb : so_action (generate_signal (mkConfig None) true "BTC/USDT" x_md false 1700000000
                            x_extract x_predict) = "BUY") by (vm_compute; reflexivity).
  split; [exact Hb|].
  destruct (generate_signal_not_hold (mkConfig None) true "BTC/USDT" x_md false 1700000000
              x_extract x_predict) as (_ & _ & prepared & f & pr & _ & _ & Hpr & Hp);
    [cbv zeta; rewrite Hb; discriminate|].
  unfold x_predict in Hpr. inversion Hpr; subst.
  rewrite Hp. cbv zeta. rewrite Hb. vm_compute. reflexivity.
Defined.


End Extras.
